(** * pasta/model.py: the time series [Model] of pastas

    A shallow embedding of the class [Model] of [pasta/model.py]: the
    registry of time series components, the parameter table, the period
    check, the simulation, the residuals and the calibration driver.

    Conventions of the embedding.
    - A pandas [Timestamp] is its integer value (nanoseconds since the
      epoch), a [Z] between [Timestamp_min] and [Timestamp_max].
    - A float is an IEEE binary64 number, Rocq's primitive [float]: numpy
      and pandas compute on the same format, NaN and infinities included.
    - A pandas [Series] is the list of its (label, value) rows, in order.
    - The methods of the class run in the monad [M]: they read and update
      the object ([self]), and they either return or raise.  The state
      reached when an exception is raised is kept, as in Python.
    - [print] appends to [self_stdout], the standard output of the run. *)

From Stdlib Require Import String ZArith List Bool Arith Lia Floats.
From Stdlib Require Import DecimalString.
Import ListNotations.
Local Open Scope Z_scope.

(** ** Timestamps *)

Definition Timestamp := Z.

(** [pd.Timestamp.min] and [pd.Timestamp.max], as nanoseconds:
    1677-09-22 00:12:43.145225 and 2262-04-11 23:47:16.854775807. *)
Definition Timestamp_min : Timestamp := -9223285636854775000.
Definition Timestamp_max : Timestamp := 9223372036854775807.

(** The values a [Timestamp] can take. *)
Definition is_timestamp (t : Z) : Prop :=
  Timestamp_min <= t <= Timestamp_max.

Definition is_timestampb (t : Z) : bool :=
  (Timestamp_min <=? t) && (t <=? Timestamp_max).

(** One day, the frequency ['D'], in nanoseconds. *)
Definition freq_D : positive := 86400000000000.

(** [pd.date_range(tmin, tmax, freq)] for a fixed-step frequency:
    [tmin], [tmin + freq], ... up to [tmax] included. *)
Definition date_range (tmin tmax : Timestamp) (freq : positive)
  : list Timestamp :=
  if tmax <? tmin then []
  else map (fun k => tmin + Z.of_nat k * Z.pos freq)
           (seq 0 (Z.to_nat ((tmax - tmin) / Z.pos freq) + 1)).

(** ** Series *)

Definition Series := list (Timestamp * float).

Definition index (s : Series) : list Timestamp := map fst s.
Definition series_values (s : Series) : list float := map snd s.

Fixpoint index_eqb (a b : list Timestamp) : bool :=
  match a, b with
  | [], [] => true
  | t :: a', u :: b' => (t =? u) && index_eqb a' b'
  | _, _ => false
  end.

Fixpoint index_mem (t : Timestamp) (idx : list Timestamp) : bool :=
  match idx with
  | [] => false
  | u :: r => (u =? t) || index_mem t r
  end.

(** pandas' NaT as an integer; what [min] and [max] of an empty index
    give. *)
Definition iNaT : Z := -9223372036854775808.

(** [index.min()] and [index.max()]. *)
Definition index_min (idx : list Timestamp) : Timestamp :=
  match idx with
  | [] => iNaT
  | t :: r => fold_left Z.min r t
  end.

Definition index_max (idx : list Timestamp) : Timestamp :=
  match idx with
  | [] => iNaT
  | t :: r => fold_left Z.max r t
  end.

(** Comparisons of timestamps: a comparison with NaT is false. *)
Definition is_NaT (t : Timestamp) : bool := t =? iNaT.

Definition ts_ltb (a b : Timestamp) : bool :=
  negb (is_NaT a) && negb (is_NaT b) && (a <? b).

Definition ts_gtb (a b : Timestamp) : bool :=
  negb (is_NaT a) && negb (is_NaT b) && (a >? b).

(** The value at a label, if the label is in the index. *)
Fixpoint series_find (s : Series) (t : Timestamp) : option float :=
  match s with
  | [] => None
  | (u, x) :: r => if u =? t then Some x else series_find r t
  end.

(** The value at a label, NaN when the label is missing. *)
Definition series_at (s : Series) (t : Timestamp) : float :=
  match series_find s t with
  | Some x => x
  | None => nan
  end.

(** [s[idx]] with [idx] an index: the series reindexed on [idx] (the
    labels of [s] are taken to be unique, as pandas requires here). *)
Definition reindex (s : Series) (idx : list Timestamp) : Series :=
  map (fun t => (t, series_at s t)) idx.

(** [s[tmin: tmax]]: label slicing on a sorted index, both ends included. *)
Definition series_slice (s : Series) (tmin tmax : Timestamp) : Series :=
  filter (fun r => (tmin <=? fst r) && (fst r <=? tmax)) s.

(** [pd.Series(data=0, index=tindex)] *)
Definition zeros (tindex : list Timestamp) : Series :=
  map (fun t => (t, 0%float)) tindex.

(** The sorted union of two indexes. *)
Fixpoint insert_sorted (t : Timestamp) (l : list Timestamp)
  : list Timestamp :=
  match l with
  | [] => [t]
  | u :: r =>
      if t <? u then t :: l
      else if t =? u then l
      else u :: insert_sorted t r
  end.

Definition index_union (a b : list Timestamp) : list Timestamp :=
  fold_right insert_sorted [] (a ++ b).

(** A binary operator on two series.  pandas aligns the operands: on the
    same index the operator is applied row by row; otherwise both operands
    are reindexed on the union of the indexes (of unique labels), NaN
    filling the gaps. *)
Definition series_binop (op : float -> float -> float) (a b : Series)
  : Series :=
  if index_eqb (index a) (index b)
  then map (fun r => (fst (fst r), op (snd (fst r)) (snd (snd r))))
           (combine a b)
  else map (fun t => (t, op (series_at a t) (series_at b t)))
           (index_union (index a) (index b)).

Definition series_add : Series -> Series -> Series :=
  series_binop PrimFloat.add.
Definition series_sub : Series -> Series -> Series :=
  series_binop PrimFloat.sub.

(** [h += c]: the sum, put back on the index of [h]. *)
Definition series_iadd (h c : Series) : Series :=
  if index_eqb (index h) (index c) then series_add h c
  else reindex (series_add h c) (index h).

(** [r ** 2] *)
Definition series_pow2 (r : Series) : Series :=
  map (fun row => (fst row, (snd row * snd row)%float)) r.

(** Python's builtin [sum] over the values of a series. *)
Definition py_sum (r : Series) : float :=
  fold_left PrimFloat.add (series_values r) 0%float.

(** [first_valid_index] and [last_valid_index]: the first and the last
    label whose value is not NaN. *)
Definition first_valid_index (s : Series) : option Timestamp :=
  match filter (fun r => negb (PrimFloat.is_nan (snd r))) s with
  | [] => None
  | r :: _ => Some (fst r)
  end.

Definition last_valid_index (s : Series) : option Timestamp :=
  first_valid_index (rev s).

(** ** Slices of a parameter vector *)

(** [p[i: j]]: Python never raises on a slice, it truncates. *)
Definition slice (p : list float) (i j : nat) : list float :=
  firstn (j - i) (skipn i p).

(** [p[-n:]]: the last [n] entries; the whole vector when [n] is 0 or
    larger than the length. *)
Definition tail_slice (p : list float) (n : nat) : list float :=
  if (n =? 0)%nat then p else skipn (length p - n) p.

(** ** The parameter table *)

(** One row of a parameter DataFrame: its label in the index and the
    columns [initial], [pmin], [pmax], [vary], [optimal] and [name]. *)
Record Row := mkRow {
  label : string;
  initial : float;
  pmin : float;
  pmax : float;
  vary : bool;
  optimal : float;
  name : string
}.

Definition DataFrame := list Row.

(** A column of a DataFrame: a series indexed by the row labels. *)
Definition Column := list (string * float).

Definition column_optimal (df : DataFrame) : Column :=
  map (fun r => (label r, optimal r)) df.

Definition column_initial (df : DataFrame) : Column :=
  map (fun r => (label r, initial r)) df.

(** [df.optimal.values] and [df.initial.values] *)
Definition optimal_values (df : DataFrame) : list float := map optimal df.
Definition initial_values (df : DataFrame) : list float := map initial df.

Definition set_initial (r : Row) (x : float) : Row :=
  mkRow (label r) x (pmin r) (pmax r) (vary r) (optimal r) (name r).

Definition set_optimal (r : Row) (x : float) : Row :=
  mkRow (label r) (initial r) (pmin r) (pmax r) (vary r) x (name r).

Fixpoint labels_eqb (a b : list string) : bool :=
  match a, b with
  | [], [] => true
  | x :: a', y :: b' => String.eqb x y && labels_eqb a' b'
  | _, _ => false
  end.

Fixpoint label_mem (l : string) (ls : list string) : bool :=
  match ls with
  | [] => false
  | x :: r => String.eqb x l || label_mem l r
  end.

Fixpoint labels_unique (ls : list string) : bool :=
  match ls with
  | [] => true
  | x :: r => negb (label_mem x r) && labels_unique r
  end.

Fixpoint column_find (c : Column) (l : string) : option float :=
  match c with
  | [] => None
  | (k, x) :: r => if String.eqb k l then Some x else column_find r l
  end.

Definition column_at (c : Column) (l : string) : float :=
  match column_find c l with
  | Some x => x
  | None => nan
  end.

(** ** Exceptions and printed messages *)

Inductive exn :=
| AssertionError (msg : string)
| AttributeError (attr : string)
| ValueError (msg : string)
| OutOfBoundsDatetime
| SolverError (msg : string).

(** What the methods print. *)
Inductive Message :=
| WarnNoNoiseModel
| WarnTminOutside (first_valid : option Timestamp)
| WarnTmaxOutside (last_valid : option Timestamp)
| NanProblem
| PrintReport (r : string).

(** ** Column assignment *)

(** [df.initial = c] with [c] a series: pandas aligns [c] on the index of
    the frame.  With the same index the values are taken in order;
    otherwise [c] is reindexed on the labels of the frame, NaN filling the
    gaps, which fails when the labels of [c] are not unique.  A frame
    without rows takes the index of [c]: one row per label, its other
    columns empty (NaN, and [false] for [vary]). *)
Definition assign_initial (df : DataFrame) (c : Column) : exn + DataFrame :=
  if labels_eqb (map fst c) (map label df)
  then inr (map (fun rx => set_initial (fst rx) (snd (snd rx)))
                (combine df c))
  else match df with
       | [] => inr (map (fun lx => mkRow (fst lx) (snd lx) nan nan false nan
                                         EmptyString) c)
       | _ :: _ =>
           if labels_unique (map fst c)
           then inr (map (fun r => set_initial r (column_at c (label r))) df)
           else inl (ValueError "cannot reindex from a duplicate axis")
       end.

(** The label of position [k] in a default index, written in decimal. *)
Definition position_label (k : nat) : string :=
  NilEmpty.string_of_uint (Nat.to_uint k).

(** [df.optimal = v] with [v] a vector: the lengths must agree.  A frame
    without rows takes the length of [v]: one row per value, labelled by
    its position, its other columns empty (NaN, and [false] for
    [vary]). *)
Definition assign_optimal (df : DataFrame) (v : list float)
  : exn + DataFrame :=
  if (length v =? length df)%nat
  then inr (map (fun rx => set_optimal (fst rx) (snd rx)) (combine df v))
  else match df with
       | [] => inr (map (fun kx => mkRow (position_label (fst kx)) nan nan
                                         nan false (snd kx) EmptyString)
                        (combine (seq 0 (length v)) v))
       | _ :: _ =>
           inl (ValueError
                  "Length of values does not match length of index")
       end.

(** ** Components, noise model, solver *)

(** A time series component, as [Model] uses it: its [name], whether it is
    an instance of [Constant], [nparam], [simulate], its [parameters]
    frame, and its [tmin] and [tmax] (not read on a [Constant]). *)
Record Tseries := mkTseries {
  ts_name : string;
  ts_is_Constant : bool;
  ts_nparam : nat;
  ts_simulate : list float -> list Timestamp -> Series;
  ts_parameters : DataFrame;
  ts_tmin : Timestamp;
  ts_tmax : Timestamp
}.

Record NoiseModel := mkNoiseModel {
  noise_nparam : nat;
  noise_simulate :
    Series -> Series -> list float -> list Timestamp -> Series;
  noise_parameters : DataFrame
}.

(** What a solver object exposes once it has run. *)
Record Fit := mkFit {
  optimal_params : list float;
  fit_report : string
}.

(** ** The model object *)

(** The attributes of a [Model].  [nparam], [parameters] and [report] do
    not exist before they are first assigned: [None] here. *)
Record Model := mkModel {
  self_oseries : Series;
  self_odelt : Series;
  self_tseriesdict : list (string * Tseries);
  self_noisemodel : option NoiseModel;
  self_tmin : option Timestamp;
  self_tmax : option Timestamp;
  self_nparam : option nat;
  self_parameters : option DataFrame;
  self_report : option string;
  self_stdout : list Message
}.

(** A solver class: called on the model, the period and the noise flag, it
    raises or gives a fit. *)
Definition Solver := Model -> Timestamp -> Timestamp -> bool -> exn + Fit.

Definition with_tseriesdict (d : list (string * Tseries)) (m : Model)
  : Model :=
  mkModel (self_oseries m) (self_odelt m) d (self_noisemodel m)
          (self_tmin m) (self_tmax m) (self_nparam m) (self_parameters m)
          (self_report m) (self_stdout m).

Definition with_noisemodel (n : option NoiseModel) (m : Model) : Model :=
  mkModel (self_oseries m) (self_odelt m) (self_tseriesdict m) n
          (self_tmin m) (self_tmax m) (self_nparam m) (self_parameters m)
          (self_report m) (self_stdout m).

Definition with_period (tmin tmax : Timestamp) (m : Model) : Model :=
  mkModel (self_oseries m) (self_odelt m) (self_tseriesdict m)
          (self_noisemodel m) (Some tmin) (Some tmax) (self_nparam m)
          (self_parameters m) (self_report m) (self_stdout m).

Definition with_nparam (n : nat) (m : Model) : Model :=
  mkModel (self_oseries m) (self_odelt m) (self_tseriesdict m)
          (self_noisemodel m) (self_tmin m) (self_tmax m) (Some n)
          (self_parameters m) (self_report m) (self_stdout m).

Definition with_parameters (df : DataFrame) (m : Model) : Model :=
  mkModel (self_oseries m) (self_odelt m) (self_tseriesdict m)
          (self_noisemodel m) (self_tmin m) (self_tmax m) (self_nparam m)
          (Some df) (self_report m) (self_stdout m).

Definition with_report (r : string) (m : Model) : Model :=
  mkModel (self_oseries m) (self_odelt m) (self_tseriesdict m)
          (self_noisemodel m) (self_tmin m) (self_tmax m) (self_nparam m)
          (self_parameters m) (Some r) (self_stdout m).

Definition with_stdout (out : list Message) (m : Model) : Model :=
  mkModel (self_oseries m) (self_odelt m) (self_tseriesdict m)
          (self_noisemodel m) (self_tmin m) (self_tmax m) (self_nparam m)
          (self_parameters m) (self_report m) out.

(** ** The monad of the methods *)

Definition M (A : Type) : Type := Model -> Model * (exn + A).

Definition ret {A} (a : A) : M A := fun self => (self, inr a).

Definition raise {A} (e : exn) : M A := fun self => (self, inl e).

Definition bind {A B} (c : M A) (k : A -> M B) : M B :=
  fun self =>
    match c self with
    | (self', inr a) => k a self'
    | (self', inl e) => (self', inl e)
    end.

Definition get : M Model := fun self => (self, inr self).

Definition modify (f : Model -> Model) : M unit :=
  fun self => (f self, inr tt).

Definition lift {A} (r : exn + A) : M A := fun self => (self, r).

Notation "x <- c ;; k" := (bind c (fun x => k))
  (at level 61, c at next level, right associativity).
Notation "c ;;; k" := (bind c (fun _ => k))
  (at level 61, right associativity).

Definition print (msg : Message) : M unit :=
  modify (fun self => with_stdout (self_stdout self ++ [msg]) self).

Definition when (b : bool) (c : M unit) : M unit :=
  if b then c else ret tt.

(** ** Construction and registration *)

(** The elapsed time between consecutive observations, in days, as
    [index.to_series().diff() / np.timedelta64(1, 'D')]: NaN on the first
    row. *)
Definition float_of_Z (z : Z) : float :=
  if z <? 0 then (- PrimFloat.of_uint63 (Uint63.of_Z (- z)))%float
  else PrimFloat.of_uint63 (Uint63.of_Z z).

Fixpoint index_diff (prev : Timestamp) (idx : list Timestamp) : Series :=
  match idx with
  | [] => []
  | t :: r =>
      (t, (float_of_Z (t - prev) / float_of_Z (Z.pos freq_D))%float)
        :: index_diff t r
  end.

Definition odelt_of (idx : list Timestamp) : Series :=
  match idx with
  | [] => []
  | t :: r => (t, nan) :: index_diff t r
  end.

(** [Model.__init__], on the series that [check_oseries] returns. *)
Definition init (oseries : Series) : Model :=
  mkModel oseries (odelt_of (index oseries)) [] None None None None None
          None [].

(** Assignment in an [OrderedDict]: a known key keeps its place. *)
Fixpoint odict_set {A} (d : list (string * A)) (k : string) (v : A)
  : list (string * A) :=
  match d with
  | [] => [(k, v)]
  | (k', v') :: r =>
      if String.eqb k' k then (k, v) :: r else (k', v') :: odict_set r k v
  end.

Definition odict_values {A} (d : list (string * A)) : list A := map snd d.

Definition addtseries (tseries : Tseries) : M unit :=
  modify (fun self =>
    with_tseriesdict (odict_set (self_tseriesdict self) (ts_name tseries)
                                tseries) self).

Definition addnoisemodel (noisemodel : option NoiseModel) : M unit :=
  modify (with_noisemodel noisemodel).

(** ** simulate *)

(** The loop of [simulate]: [h] accumulates the contributions, [istart]
    tracks the position in the parameter vector. *)
Fixpoint simulate_loop (tss : list Tseries) (parameters : list float)
    (tindex : list Timestamp) (h : Series) (istart : nat) : Series :=
  match tss with
  | [] => h
  | ts :: rest =>
      let h :=
        series_iadd h
          (ts_simulate ts (slice parameters istart (istart + ts_nparam ts))
                       tindex) in
      simulate_loop rest parameters tindex h (istart + ts_nparam ts)
  end.

(** [self.parameters.optimal.values] *)
Definition parameters_optimal_values : M (list float) :=
  self <- get ;;
  match self_parameters self with
  | None => raise (AttributeError "parameters")
  | Some df => ret (optimal_values df)
  end.

Definition simulate (parameters : option (list float))
    (tmin tmax : option Timestamp) (freq : positive) : M Series :=
  self <- get ;;
  let tmin := match tmin with None => self_tmin self | Some t => Some t end in
  let tmax := match tmax with None => self_tmax self | Some t => Some t end in
  match tmin, tmax with
  | Some tmin, Some tmax =>
      let tindex := date_range tmin tmax freq in
      parameters <- match parameters with
                    | None => parameters_optimal_values
                    | Some p => ret p
                    end ;;
      ret (simulate_loop (odict_values (self_tseriesdict self)) parameters
                         tindex (zeros tindex) 0)
  | _, _ => raise (AssertionError "model needs to be solved first")
  end.

(** ** residuals and sse *)

Definition residuals (parameters : option (list float))
    (tmin tmax : option Timestamp) (noise : bool) : M Series :=
  self <- get ;;
  let tmin := match tmin with
              | None => index_min (index (self_oseries self))
              | Some t => t
              end in
  let tmax := match tmax with
              | None => index_max (index (self_oseries self))
              | Some t => t
              end in
  let tindex := index (series_slice (self_oseries self) tmin tmax) in
  parameters <- match parameters with
                | None => parameters_optimal_values
                | Some p => ret p
                end ;;
  sim <- simulate (Some parameters) (Some tmin) (Some tmax) freq_D ;;
  let r := series_sub (reindex (self_oseries self) tindex)
                      (reindex sim tindex) in
  let r := match noise, self_noisemodel self with
           | true, Some nm =>
               noise_simulate nm r (reindex (self_odelt self) tindex)
                 (tail_slice parameters (noise_nparam nm)) tindex
           | _, _ => r
           end in
  when (PrimFloat.is_nan (py_sum (series_pow2 r))) (print NanProblem) ;;;
  ret r.

Definition sse (parameters : option (list float))
    (tmin tmax : option Timestamp) (noise : bool) : M float :=
  res <- residuals parameters tmin tmax noise ;;
  ret (py_sum (series_pow2 res)).

(** ** initialize *)

Definition sum_nparam (tss : list Tseries) : nat :=
  fold_left (fun acc ts => (acc + ts_nparam ts)%nat) tss 0%nat.

(** The frame built by the appends of [initialize]: the rows of every
    component in order, then those of the noise model. *)
Definition append_all (tss : list Tseries) (noisemodel : option NoiseModel)
  : DataFrame :=
  let df := fold_left (fun df ts => df ++ ts_parameters ts) tss [] in
  match noisemodel with
  | Some nm => df ++ noise_parameters nm
  | None => df
  end.

Definition initialize (initial : bool) : M unit :=
  self <- get ;;
  optimal <- (if initial then ret []
              else match self_parameters self with
                   | None => raise (AttributeError "parameters")
                   | Some df => ret (column_optimal df)
                   end) ;;
  let nparam := sum_nparam (odict_values (self_tseriesdict self)) in
  let nparam := match self_noisemodel self with
                | Some nm => (nparam + noise_nparam nm)%nat
                | None => nparam
                end in
  modify (with_nparam nparam) ;;;
  let df := append_all (odict_values (self_tseriesdict self))
                       (self_noisemodel self) in
  modify (with_parameters df) ;;;
  if initial then ret tt
  else
    df' <- lift (assign_initial df optimal) ;;
    modify (with_parameters df').

(** ** check_series *)

(** [pd.tslib.Timestamp(t)] on a date given as nanoseconds. *)
Definition to_Timestamp (t : Z) : M Timestamp :=
  if is_timestampb t then ret t else raise OutOfBoundsDatetime.

(** The loop of [check_series] over the components. *)
Fixpoint period_loop (tss : list Tseries) (tstmin tstmax : Timestamp)
  : Timestamp * Timestamp :=
  match tss with
  | [] => (tstmin, tstmax)
  | ts :: rest =>
      if ts_is_Constant ts then period_loop rest tstmin tstmax
      else
        let tstmin :=
          if ts_ltb (ts_tmin ts) tstmin then ts_tmin ts else tstmin in
        let tstmax :=
          if ts_gtb (ts_tmax ts) tstmax then ts_tmax ts else tstmax in
        period_loop rest tstmin tstmax
  end.

Definition check_series (tmin tmax : option Z) : M (Timestamp * Timestamp) :=
  self <- get ;;
  tmin <- match tmin with
          | None => ret (index_min (index (self_oseries self)))
          | Some t => to_Timestamp t
          end ;;
  tmax <- match tmax with
          | None => ret (index_max (index (self_oseries self)))
          | Some t => to_Timestamp t
          end ;;
  when (negb (index_mem tmin (index (self_oseries self))))
       (print (WarnTminOutside (first_valid_index (self_oseries self)))) ;;;
  when (negb (index_mem tmax (index (self_oseries self))))
       (print (WarnTmaxOutside (last_valid_index (self_oseries self)))) ;;;
  let tst := period_loop (odict_values (self_tseriesdict self))
                         Timestamp_min Timestamp_max in
  let tstmin := fst tst in
  let tstmax := snd tst in
  modify (with_period tmin tmax) ;;;
  let tmin := if ts_gtb tstmin tmin then tstmin else tmin in
  let tmax := if ts_ltb tstmax tmax then tstmax else tmax in
  ret (tmin, tmax).

(** ** solve *)

(** The argument [solve=True] of the method is never read; it is left
    out. *)
Definition solve (tmin tmax : option Z) (solver : Solver)
    (report noise initial : bool) : M unit :=
  self <- get ;;
  when (noise && match self_noisemodel self with
                 | None => true
                 | Some _ => false
                 end)
       (print WarnNoNoiseModel) ;;;
  period <- check_series tmin tmax ;;
  initialize initial ;;;
  self <- get ;;
  fit <- lift (solver self (fst period) (snd period) noise) ;;
  df <- (match self_parameters self with
         | None => raise (AttributeError "parameters")
         | Some df => lift (assign_optimal df (optimal_params fit))
         end) ;;
  modify (with_parameters df) ;;;
  modify (with_report (fit_report fit)) ;;;
  when report (print (PrintReport (fit_report fit))).

(** * Concrete models *)

Module Examples.

(** Day [k] after the epoch. *)
Definition day (k : Z) : Timestamp := k * Z.pos freq_D.

(** An observed series of eleven daily values, days 0 to 10. *)
Definition oseries11 : Series :=
  map (fun k => (day (Z.of_nat k), 2%float)) (seq 0 11).

(** A constant component: one parameter, the level. *)
Definition constant : Tseries :=
  mkTseries "constant" true 1
    (fun p tindex => map (fun t => (t, hd 0%float p)) tindex)
    [mkRow "constant_d" 1%float nan nan true nan "constant"]
    0 0.

(** A series on [tindex] that starts at [x] and grows by [step] a row. *)
Fixpoint ramp (tindex : list Timestamp) (x step : float) : Series :=
  match tindex with
  | [] => []
  | t :: r => (t, x) :: ramp r (x + step)%float step
  end.

(** A stress component valid from day 3 to day 7: two parameters, its
    contribution starts at the first and grows by the second every row. *)
Definition recharge : Tseries :=
  mkTseries "recharge" false 2
    (fun p tindex => ramp tindex (nth 0 p 0%float) (nth 1 p 0%float))
    [mkRow "recharge_A" 1%float 0%float 10%float true nan "recharge";
     mkRow "recharge_a" 2%float 0%float 10%float true nan "recharge"]
    (day 3) (day 7).

(** A fresh model with the stress component only. *)
Definition model_recharge : Model :=
  fst (addtseries recharge (init oseries11)).

(** A fresh model with the constant and then the stress component. *)
Definition model_two : Model :=
  fst (addtseries recharge (fst (addtseries constant (init oseries11)))).

(** The stress model after [check_series(tmin=day 1)]. *)
Definition model_recharge_checked : Model :=
  fst (check_series (Some (day 1)) None model_recharge).

(** A noise model with one parameter that leaves the residuals as they
    are. *)
Definition noise1 : NoiseModel :=
  mkNoiseModel 1 (fun r _ _ _ => r)
    [mkRow "noise_alpha" 14%float 0%float 5000%float true nan "noise"].

(** The model with both components and the noise model. *)
Definition model_noise : Model :=
  fst (addnoisemodel (Some noise1) model_two).

(** A solver that succeeds, and one that raises. *)
Definition solver_ok : Solver :=
  fun _ _ _ _ => inr (mkFit [5%float; 6%float] "fit ok").

Definition solver_fails : Solver :=
  fun _ _ _ _ => inl (SolverError "no convergence").

(** The stress model after a successful calibration. *)
Definition model_fitted : Model :=
  fst (solve None None solver_ok false false true model_recharge).

(** The calibrated model after a second [solve] whose solver raises. *)
Definition model_failed : Model :=
  fst (solve None None solver_fails false false true model_fitted).

(** A model without components, observed once, at a very large value. *)
Definition model_huge : Model := init [(day 0, 0x1p+600%float)].

End Examples.

(** * Notions used in the statements *)

(** The observed series as [check_oseries] gives it: not empty, its
    labels timestamps. *)
Definition oseries_ok (m : Model) : Prop :=
  self_oseries m <> [] /\ Forall is_timestamp (index (self_oseries m)).

(** The bounds [check_series] starts from: the request, or the extent
    of the observed series. *)
Definition requested_tmin (m : Model) (tmin : option Z) : Timestamp :=
  match tmin with
  | None => index_min (index (self_oseries m))
  | Some t => t
  end.

Definition requested_tmax (m : Model) (tmax : option Z) : Timestamp :=
  match tmax with
  | None => index_max (index (self_oseries m))
  | Some t => t
  end.

(** The tracking window of [check_series]. *)
Definition tracking (m : Model) : Timestamp * Timestamp :=
  period_loop (odict_values (self_tseriesdict m)) Timestamp_min
              Timestamp_max.

(** The components in registration order. *)
Definition registry (m : Model) : list Tseries :=
  odict_values (self_tseriesdict m).

(** The contribution of every component, in registration order, each
    computed on its own slice of the parameter vector: the slice of the
    first component starts at [istart], the next one where it ends. *)
Fixpoint contributions (tss : list Tseries) (parameters : list float)
    (tindex : list Timestamp) (istart : nat) : list Series :=
  match tss with
  | [] => []
  | ts :: rest =>
      ts_simulate ts (slice parameters istart (istart + ts_nparam ts)) tindex
        :: contributions rest parameters tindex (istart + ts_nparam ts)
  end.

(** The sum of two vectors, entry by entry. *)
Definition vec_add (a b : list float) : list float :=
  map (fun xy => (fst xy + snd xy)%float) (combine a b).

(** A component that simulates on the time index it is given. *)
Definition well_indexed (ts : Tseries) : Prop :=
  forall p tindex, index (ts_simulate ts p tindex) = tindex.

(** Every component and the noise model declare as many parameter rows
    as their [nparam]. *)
Definition rows_match_nparam (m : Model) : Prop :=
  Forall (fun kv => length (ts_parameters (snd kv)) = ts_nparam (snd kv))
         (self_tseriesdict m) /\
  match self_noisemodel m with
  | Some nm => length (noise_parameters nm) = noise_nparam nm
  | None => True
  end.

(** The sum of [nparam] over the components, plus that of the noise
    model if there is one. *)
Definition total_nparam (m : Model) : nat :=
  (list_sum (map (fun kv => ts_nparam (snd kv)) (self_tseriesdict m))
   + match self_noisemodel m with
     | Some nm => noise_nparam nm
     | None => 0
     end)%nat.

(** The rows [initialize] collects from the components and the noise
    model. *)
Definition declared_rows (m : Model) : DataFrame :=
  append_all (registry m) (self_noisemodel m).

(** What [simulate] computes on an explicit parameter vector and window:
    the contributions added one after the other to a series of zeros. *)
Definition simulated (m : Model) (p : list float) (tmin tmax : Timestamp)
    (freq : positive) : Series :=
  fold_left series_iadd
            (contributions (registry m) p (date_range tmin tmax freq) 0)
            (zeros (date_range tmin tmax freq)).

(** Observed minus simulated, on the observed timestamps of the window. *)
Definition raw_residuals (m : Model) (p : list float)
    (tmin tmax : Timestamp) : Series :=
  let tindex := index (series_slice (self_oseries m) tmin tmax) in
  series_sub (reindex (self_oseries m) tindex)
             (reindex (simulated m p tmin tmax freq_D) tindex).

(** The residuals after the noise model, when it is asked for and there
    is one. *)
Definition final_residuals (m : Model) (p : list float)
    (tmin tmax : Timestamp) (noise : bool) : Series :=
  let tindex := index (series_slice (self_oseries m) tmin tmax) in
  match noise, self_noisemodel m with
  | true, Some nm =>
      noise_simulate nm (raw_residuals m p tmin tmax)
        (reindex (self_odelt m) tindex)
        (tail_slice p (noise_nparam nm)) tindex
  | _, _ => raw_residuals m p tmin tmax
  end.

(** The sum of squares that [residuals] tests and [sse] returns. *)
Definition sum_of_squares (r : Series) : float := py_sum (series_pow2 r).

(** The first steps of [solve], up to the call of the solver. *)
Definition solve_prepare (tmin tmax : option Z) (noise initial : bool)
  : M (Timestamp * Timestamp) :=
  self <- get ;;
  when (noise && match self_noisemodel self with
                 | None => true
                 | Some _ => false
                 end)
       (print WarnNoNoiseModel) ;;;
  period <- check_series tmin tmax ;;
  initialize initial ;;;
  ret period.

(** The message of the assertion of [simulate]. *)
Definition unfit_error : exn :=
  AssertionError "model needs to be solved first".

(** [d[k]] on an [OrderedDict]: [None] stands for the [KeyError]. *)
Fixpoint odict_get {A} (d : list (string * A)) (k : string) : option A :=
  match d with
  | [] => None
  | (k', v) :: r => if String.eqb k' k then Some v else odict_get r k
  end.

Definition odict_keys {A} (d : list (string * A)) : list string :=
  map fst d.

(** What [check_series] prints for the bounds [smin] and [smax] it starts
    from: a warning for each bound that is not an observed timestamp. *)
Definition period_warnings (m : Model) (smin smax : Timestamp)
  : list Message :=
  ((if index_mem smin (index (self_oseries m)) then []
    else [WarnTminOutside (first_valid_index (self_oseries m))])
   ++ (if index_mem smax (index (self_oseries m)) then []
       else [WarnTmaxOutside (last_valid_index (self_oseries m))]))%list.

(** The bounds [check_series] returns: those it starts from, clipped by
    the tracking window. *)
Definition clipped (m : Model) (smin smax : Timestamp)
  : Timestamp * Timestamp :=
  (if ts_gtb (fst (tracking m)) smin then fst (tracking m) else smin,
   if ts_ltb (snd (tracking m)) smax then snd (tracking m) else smax).

(** The window of [residuals]: the observed rows from [tmin] to [tmax]. *)
Definition window (m : Model) (tmin tmax : Timestamp) : Series :=
  series_slice (self_oseries m) tmin tmax.

(** The rows of the components in registration order, then those of the
    noise model. *)
Definition rows_in_order (m : Model) : DataFrame :=
  (concat (map ts_parameters (registry m))
   ++ match self_noisemodel m with
      | Some nm => noise_parameters nm
      | None => []
      end)%list.

(** The values of [s] grow strictly. *)
Fixpoint increasing (l : list Timestamp) : Prop :=
  match l with
  | [] => True
  | t :: r => match r with
              | [] => True
              | u :: _ => t < u
              end /\ increasing r
  end.

(** * More concrete models *)

Module Scenarios.

(** The calibrated stress model, a constant registered afterwards. *)
Definition model_grown : Model :=
  fst (addtseries Examples.constant Examples.model_fitted).

(** A solver whose vector has one entry too many for the stress model. *)
Definition solver_long : Solver :=
  fun _ _ _ _ =>
    inr (mkFit [5%float; 6%float; 7%float] "fit with three values").

(** A model with a noise model and no component is initialized; then the
    noise model is taken away. *)
Definition model_noise_removed : Model :=
  fst (addnoisemodel None
         (fst (initialize true
                 (fst (addnoisemodel (Some Examples.noise1)
                                     (init Examples.oseries11)))))).

(** The stress model when the first steps of [solve] have run. *)
Definition model_prepared : Model :=
  fst (solve_prepare None None false true Examples.model_recharge).

End Scenarios.

(** * The period check *)

Section CheckSeries.

Lemma ts_ltb_lt (a b : Timestamp) : ts_ltb a b = true -> a < b.
Proof.
  unfold ts_ltb. intros H.
  apply andb_true_iff in H as [_ H]. now apply Z.ltb_lt.
Qed.

Lemma ts_gtb_gt (a b : Timestamp) : ts_gtb a b = true -> b < a.
Proof.
  unfold ts_gtb. intros H.
  apply andb_true_iff in H as [_ H]. apply Z.gtb_lt in H. lia.
Qed.

(** The loop never narrows the tracking window: it starts at the full
    range of timestamps and only moves a bound outwards. *)
Lemma period_loop_outwards (tss : list Tseries) :
  forall tstmin tstmax,
    fst (period_loop tss tstmin tstmax) <= tstmin /\
    tstmax <= snd (period_loop tss tstmin tstmax).
Proof.
  induction tss as [|ts rest IH]; intros tstmin tstmax; simpl.
  - lia.
  - destruct (ts_is_Constant ts); [apply IH|].
    specialize (IH (if ts_ltb (ts_tmin ts) tstmin then ts_tmin ts
                    else tstmin)
                   (if ts_gtb (ts_tmax ts) tstmax then ts_tmax ts
                    else tstmax)).
    destruct (ts_ltb (ts_tmin ts) tstmin) eqn:E1;
      destruct (ts_gtb (ts_tmax ts) tstmax) eqn:E2;
      try apply ts_ltb_lt in E1; try apply ts_gtb_gt in E2; lia.
Qed.

Lemma is_timestampb_spec (t : Z) :
  is_timestampb t = true <-> is_timestamp t.
Proof.
  unfold is_timestampb, is_timestamp.
  rewrite andb_true_iff, !Z.leb_le. tauto.
Qed.

Lemma fold_left_min_In (r : list Z) :
  forall t, In (fold_left Z.min r t) (t :: r).
Proof.
  induction r as [|u r IH]; intros t; simpl; [now left|].
  destruct (IH (Z.min t u)) as [H|H].
  - destruct (Z.min_spec t u) as [[_ E]|[_ E]]; rewrite E in *; simpl; auto.
  - simpl; auto.
Qed.

Lemma fold_left_max_In (r : list Z) :
  forall t, In (fold_left Z.max r t) (t :: r).
Proof.
  induction r as [|u r IH]; intros t; simpl; [now left|].
  destruct (IH (Z.max t u)) as [H|H].
  - destruct (Z.max_spec t u) as [[_ E]|[_ E]]; rewrite E in *; simpl; auto.
  - simpl; auto.
Qed.

Lemma index_min_is_timestamp (m : Model) :
  oseries_ok m -> is_timestamp (index_min (index (self_oseries m))).
Proof.
  intros [Hne Hall]. destruct (self_oseries m) as [|[t x] r]; [easy|].
  simpl in *. rewrite Forall_forall in Hall. apply Hall.
  apply (fold_left_min_In (map fst r) t).
Qed.

Lemma index_max_is_timestamp (m : Model) :
  oseries_ok m -> is_timestamp (index_max (index (self_oseries m))).
Proof.
  intros [Hne Hall]. destruct (self_oseries m) as [|[t x] r]; [easy|].
  simpl in *. rewrite Forall_forall in Hall. apply Hall.
  apply (fold_left_max_In (map fst r) t).
Qed.

Lemma bind_inr {A B} (c : M A) (k : A -> M B) (m m' : Model) (b : B) :
  bind c k m = (m', inr b) ->
  exists a m1, c m = (m1, inr a) /\ k a m1 = (m', inr b).
Proof.
  unfold bind. destruct (c m) as [m1 [e|a]]; intros H.
  - discriminate.
  - now exists a, m1.
Qed.

Lemma when_print_inr (b : bool) (msg : Message) (m m' : Model) (u : unit) :
  when b (print msg) m = (m', inr u) ->
  exists out, m' = with_stdout out m.
Proof.
  destruct b; simpl; intros H; injection H as <- _.
  - eexists; reflexivity.
  - exists (self_stdout m). now destruct m.
Qed.

Lemma to_Timestamp_inr (t : Z) (m m' : Model) (t' : Timestamp) :
  to_Timestamp t m = (m', inr t') ->
  m' = m /\ t' = t /\ is_timestamp t.
Proof.
  unfold to_Timestamp. destruct (is_timestampb t) eqn:E; intros H.
  - injection H as <- <-. rewrite <- is_timestampb_spec. auto.
  - discriminate.
Qed.

(** What a returning call of [check_series] does: the bounds it starts
    from are stored, their clipping by the tracking window is returned;
    nothing else changes but the output. *)
Lemma check_series_returns (m m' : Model) (tmin tmax : option Z)
      (r : Timestamp * Timestamp) :
  check_series tmin tmax m = (m', inr r) ->
  let smin := requested_tmin m tmin in
  let smax := requested_tmax m tmax in
  (forall t, tmin = Some t -> is_timestamp t) /\
  (forall t, tmax = Some t -> is_timestamp t) /\
  (exists out, m' = with_period smin smax (with_stdout out m)) /\
  r = clipped m smin smax.
Proof.
  unfold check_series. intros H.
  apply bind_inr in H as (self & m0 & Hget & H).
  injection Hget as <- <-.
  apply bind_inr in H as (tmin' & m1 & H1 & H).
  assert (E1 : m1 = m /\ tmin' = requested_tmin m tmin /\
               forall t, tmin = Some t -> is_timestamp t).
  { destruct tmin as [t|].
    - apply to_Timestamp_inr in H1 as (-> & -> & Ht).
      split; [reflexivity|split; [reflexivity|]]. now intros t' [= <-].
    - injection H1 as <- <-.
      split; [reflexivity|split; [reflexivity|discriminate]]. }
  destruct E1 as (-> & -> & Vmin). clear H1.
  apply bind_inr in H as (tmax' & m1 & H1 & H).
  assert (E1 : m1 = m /\ tmax' = requested_tmax m tmax /\
               forall t, tmax = Some t -> is_timestamp t).
  { destruct tmax as [t|].
    - apply to_Timestamp_inr in H1 as (-> & -> & Ht).
      split; [reflexivity|split; [reflexivity|]]. now intros t' [= <-].
    - injection H1 as <- <-.
      split; [reflexivity|split; [reflexivity|discriminate]]. }
  destruct E1 as (-> & -> & Vmax). clear H1.
  apply bind_inr in H as (u1 & m1 & H1 & H).
  apply when_print_inr in H1 as [out1 ->].
  apply bind_inr in H as (u2 & m2 & H2 & H).
  apply when_print_inr in H2 as [out2 ->].
  apply bind_inr in H as (u3 & m3 & H3 & H).
  injection H3 as <- _. injection H as <- <-.
  split; [exact Vmin|]. split; [exact Vmax|].
  split; [exists out2; reflexivity|reflexivity].
Qed.

End CheckSeries.

Section PeriodState.

(** On an observed series of timestamps the tracking window never clips:
    it is at least the full range of timestamps, so [check_series]
    returns the bounds it started from. *)
Lemma check_series_no_clip (m m' : Model) (tmin tmax : option Z)
      (r : Timestamp * Timestamp) :
  oseries_ok m ->
  check_series tmin tmax m = (m', inr r) ->
  r = (requested_tmin m tmin, requested_tmax m tmax).
Proof.
  intros Hok H.
  apply check_series_returns in H as (Vmin & Vmax & _ & ->).
  assert (Smin : is_timestamp (requested_tmin m tmin)).
  { destruct tmin as [t|]; simpl.
    - now apply Vmin.
    - now apply index_min_is_timestamp. }
  assert (Smax : is_timestamp (requested_tmax m tmax)).
  { destruct tmax as [t|]; simpl.
    - now apply Vmax.
    - now apply index_max_is_timestamp. }
  destruct (period_loop_outwards (odict_values (self_tseriesdict m))
                                 Timestamp_min Timestamp_max) as [L U].
  fold (tracking m) in L, U.
  unfold is_timestamp in Smin, Smax. unfold clipped.
  destruct (ts_gtb (fst (tracking m)) (requested_tmin m tmin)) eqn:E1;
    destruct (ts_ltb (snd (tracking m)) (requested_tmax m tmax)) eqn:E2;
    try apply ts_gtb_gt in E1; try apply ts_ltb_lt in E2;
    try lia; reflexivity.
Qed.

(** C1, on the code: a model observed from day 0 to day 10 whose only
    component, not a [Constant], is valid from day 3 to day 7.
    [check_series] returns the observed extent, day 0 to day 10, not
    clipped to the window of the component; and a requested [tmin] of
    day 1, before the window, is returned as it is, not raised to day 3. *)
Theorem check_series_ignores_component_window :
  ts_is_Constant Examples.recharge = false /\
  ts_tmin Examples.recharge = Examples.day 3 /\
  ts_tmax Examples.recharge = Examples.day 7 /\
  snd (check_series None None Examples.model_recharge)
    = inr (Examples.day 0, Examples.day 10) /\
  snd (check_series (Some (Examples.day 1)) None Examples.model_recharge)
    = inr (Examples.day 1, Examples.day 10) /\
  Examples.day 0 < Examples.day 1 < Examples.day 3 /\
  Examples.day 7 < Examples.day 10.
Proof.
  repeat split; vm_compute; reflexivity.
Qed.

(** On an observed series of timestamps, whatever the components and the
    request, no call of [check_series] leaves a stored period wider than
    the period it returns. *)
Lemma stored_period_never_wider :
  ~ exists (m m' : Model) (tmin tmax : option Z)
           (r : Timestamp * Timestamp) (smin smax : Timestamp),
      oseries_ok m /\
      check_series tmin tmax m = (m', inr r) /\
      self_tmin m' = Some smin /\ self_tmax m' = Some smax /\
      (smin < fst r \/ snd r < smax).
Proof.
  intros (m & m' & tmin & tmax & r & smin & smax
          & Hok & H & Hmin & Hmax & Hwide).
  pose proof (check_series_no_clip _ _ _ _ _ Hok H) as ->.
  apply check_series_returns in H as (_ & _ & [out ->] & _).
  simpl in Hmin, Hmax.
  injection Hmin as <-. injection Hmax as <-.
  simpl in Hwide. lia.
Qed.

(** C10, on the code: the model observed from day 0 to day 10 whose only
    component, not a [Constant], is valid from day 3 to day 7.
    [check_series] stores the bounds it starts from, day 0 and day 10,
    before the clipping, as the claim says; but the bounds it returns are
    day 0 and day 10 too, not clipped to the window of the component, so
    the stored period is not wider than the returned one. *)
Theorem check_series_stored_is_returned :
  ts_is_Constant Examples.recharge = false /\
  ts_tmin Examples.recharge = Examples.day 3 /\
  ts_tmax Examples.recharge = Examples.day 7 /\
  self_tmin (fst (check_series None None Examples.model_recharge))
  = Some (Examples.day 0) /\
  self_tmax (fst (check_series None None Examples.model_recharge))
  = Some (Examples.day 10) /\
  snd (check_series None None Examples.model_recharge)
  = inr (Examples.day 0, Examples.day 10).
Proof.
  repeat split; vm_compute; reflexivity.
Qed.

End PeriodState.

(** * Slices and contributions *)

Section Slices.

Local Open Scope nat_scope.

Lemma slice_app_left (p extra : list float) (i j : nat) :
  j <= length p -> slice (p ++ extra) i j = slice p i j.
Proof.
  intros H. unfold slice.
  rewrite skipn_app, firstn_app, length_skipn.
  replace (j - i - (length p - i)) with 0 by lia.
  simpl. now rewrite app_nil_r.
Qed.

Lemma slice_app_right (a b : list float) (i j : nat) :
  length a <= i ->
  slice (a ++ b) i j = slice b (i - length a) (j - length a).
Proof.
  intros H. unfold slice.
  rewrite skipn_app, (skipn_all2 a H). simpl.
  f_equal. lia.
Qed.

Lemma slice_middle (a b c : list float) :
  slice (a ++ b ++ c) (length a) (length a + length b) = b.
Proof.
  rewrite slice_app_right by lia. unfold slice.
  replace (length a - length a) with 0 by lia.
  replace (length a + length b - length a - 0) with (length b) by lia.
  simpl. rewrite firstn_app, Nat.sub_diag. simpl.
  now rewrite firstn_all, app_nil_r.
Qed.

Lemma sum_nparam_from (tss : list Tseries) :
  forall acc,
    fold_left (fun acc ts => acc + ts_nparam ts) tss acc
    = acc + sum_nparam tss.
Proof.
  unfold sum_nparam.
  induction tss as [|ts rest IH]; intros acc; simpl.
  - lia.
  - rewrite (IH (acc + ts_nparam ts)), (IH (ts_nparam ts)). lia.
Qed.

Lemma sum_nparam_cons (ts : Tseries) (rest : list Tseries) :
  sum_nparam (ts :: rest) = ts_nparam ts + sum_nparam rest.
Proof.
  unfold sum_nparam at 1. simpl. apply sum_nparam_from.
Qed.

(** The sum the loop of [initialize] computes is the sum of [nparam]
    over the entries of the dictionary. *)
Lemma sum_nparam_list_sum (d : list (string * Tseries)) :
  sum_nparam (odict_values d)
  = list_sum (map (fun kv => ts_nparam (snd kv)) d).
Proof.
  induction d as [|[k ts] d IH]; [reflexivity|].
  unfold odict_values in *. simpl map.
  now rewrite sum_nparam_cons, IH.
Qed.

Lemma contributions_app (pre post : list Tseries) (p : list float)
      (tindex : list Timestamp) :
  forall i,
    contributions (pre ++ post) p tindex i
    = contributions pre p tindex i
      ++ contributions post p tindex (i + sum_nparam pre).
Proof.
  induction pre as [|ts rest IH]; intros i; simpl.
  - f_equal. unfold sum_nparam. simpl. lia.
  - rewrite IH, sum_nparam_cons. do 3 f_equal. lia.
Qed.

(** Entries after the slices of the components are not read. *)
Lemma contributions_prefix (tss : list Tseries) (p extra : list float)
      (tindex : list Timestamp) :
  forall i,
    i + sum_nparam tss <= length p ->
    contributions tss (p ++ extra) tindex i = contributions tss p tindex i.
Proof.
  induction tss as [|ts rest IH]; intros i H; simpl; [reflexivity|].
  rewrite sum_nparam_cons in H.
  rewrite slice_app_left by lia. f_equal. apply IH. lia.
Qed.

(** Components whose slices start after [b] do not see what [b] holds. *)
Lemma contributions_suffix (tss : list Tseries) (a b b' c : list float)
      (tindex : list Timestamp) :
  length b' = length b ->
  forall i,
    length a + length b <= i ->
    contributions tss (a ++ b ++ c) tindex i
    = contributions tss (a ++ b' ++ c) tindex i.
Proof.
  intros Hb.
  induction tss as [|ts rest IH]; intros i H; simpl; [reflexivity|].
  f_equal.
  - rewrite !app_assoc.
    rewrite !slice_app_right by (rewrite length_app; lia).
    now rewrite !length_app, Hb.
  - apply IH. lia.
Qed.

Lemma simulate_loop_fold (tss : list Tseries) (p : list float)
      (tindex : list Timestamp) :
  forall h i,
    simulate_loop tss p tindex h i
    = fold_left series_iadd (contributions tss p tindex i) h.
Proof.
  induction tss as [|ts rest IH]; intros h i; simpl; [reflexivity|].
  apply IH.
Qed.

Lemma index_eqb_refl (l : list Timestamp) : index_eqb l l = true.
Proof.
  induction l as [|t r IH]; simpl; [reflexivity|].
  now rewrite Z.eqb_refl, IH.
Qed.

Lemma combine_fst {A B} (a : list A) :
  forall b : list B, length a = length b -> map fst (combine a b) = a.
Proof.
  induction a as [|x a IH]; intros [|y b] H; simpl in *; try easy.
  f_equal. apply IH. lia.
Qed.

Lemma combine_snd {A B} (a : list A) :
  forall b : list B, length a = length b -> map snd (combine a b) = b.
Proof.
  induction a as [|x a IH]; intros [|y b] H; simpl in *; try easy.
  f_equal. apply IH. lia.
Qed.

Lemma same_index_same_length (a b : Series) :
  index a = index b -> length a = length b.
Proof.
  intros H. apply (f_equal (@length _)) in H.
  unfold index in H. now rewrite !length_map in H.
Qed.

(** On a common index a binary operator works row by row. *)
Lemma series_binop_same_index (op : float -> float -> float)
      (a b : Series) :
  index a = index b ->
  index (series_binop op a b) = index a /\
  series_values (series_binop op a b)
  = map (fun xy => op (fst xy) (snd xy))
        (combine (series_values a) (series_values b)).
Proof.
  intros H. unfold series_binop.
  rewrite H, index_eqb_refl.
  pose proof (same_index_same_length a b H) as L.
  unfold index, series_values. rewrite !map_map. simpl.
  split.
  - rewrite <- (map_map fst fst). now rewrite combine_fst.
  - clear H. revert b L.
    induction a as [|x a IH]; intros [|y b] L; simpl in *; try easy.
    f_equal. apply IH. lia.
Qed.

Lemma fold_series_add (tindex : list Timestamp) (cs : list Series) :
  Forall (fun c => index c = tindex) cs ->
  forall h,
    index h = tindex ->
    index (fold_left series_add cs h) = tindex /\
    series_values (fold_left series_add cs h)
    = fold_left vec_add (map series_values cs) (series_values h).
Proof.
  induction 1 as [|c cs Hc _ IH]; intros h Hh; simpl.
  - now split.
  - assert (E : index h = index c) by congruence.
    destruct (series_binop_same_index PrimFloat.add h c E) as [I V].
    fold (series_add h c) in I, V.
    destruct (IH (series_add h c)) as [I' V']; [congruence|].
    split; [exact I'|]. rewrite V', V. reflexivity.
Qed.

(** On a common index the in-place sum is the sum; and the in-place sum
    is always on the index of its first operand. *)
Lemma series_iadd_same_index (h c : Series) :
  index h = index c -> series_iadd h c = series_add h c.
Proof.
  intros H. unfold series_iadd. now rewrite H, index_eqb_refl.
Qed.

Lemma series_iadd_index (h c : Series) :
  index (series_iadd h c) = index h.
Proof.
  unfold series_iadd. destruct (index_eqb (index h) (index c)) eqn:E.
  - unfold series_add, series_binop. rewrite E.
    assert (L : length h = length c).
    { clear - E. unfold index in E. revert c E.
      induction h as [|x h IH]; intros [|y c] E; simpl in *; try easy.
      apply andb_true_iff in E as [_ E]. f_equal. now apply IH. }
    unfold index. rewrite map_map. simpl.
    rewrite <- (map_map fst fst). now rewrite combine_fst.
  - unfold reindex, index. rewrite map_map. simpl. apply map_id.
Qed.

Lemma fold_series_iadd_index (cs : list Series) :
  forall h, index (fold_left series_iadd cs h) = index h.
Proof.
  induction cs as [|c cs IH]; intros h; simpl; [reflexivity|].
  now rewrite IH, series_iadd_index.
Qed.

Lemma fold_series_iadd_add (tindex : list Timestamp) (cs : list Series) :
  Forall (fun c => index c = tindex) cs ->
  forall h,
    index h = tindex ->
    fold_left series_iadd cs h = fold_left series_add cs h.
Proof.
  induction 1 as [|c cs Hc _ IH]; intros h Hh; simpl; [reflexivity|].
  rewrite series_iadd_same_index by congruence.
  apply IH.
  destruct (series_binop_same_index PrimFloat.add h c) as [I _];
    [congruence|].
  fold (series_add h c) in I. congruence.
Qed.

Lemma contributions_well_indexed (tss : list Tseries) (p : list float)
      (tindex : list Timestamp) :
  Forall well_indexed tss ->
  forall i, Forall (fun c => index c = tindex) (contributions tss p tindex i).
Proof.
  induction 1 as [|ts rest Hts _ IH]; intros i; simpl; constructor.
  - apply Hts.
  - apply IH.
Qed.

Lemma simulate_explicit (m : Model) (p : list float)
      (tmin tmax : Timestamp) (freq : positive) :
  simulate (Some p) (Some tmin) (Some tmax) freq m
  = (m, inr (simulated m p tmin tmax freq)).
Proof.
  unfold simulate, bind, get, ret, simulated. simpl.
  now rewrite simulate_loop_fold.
Qed.

Lemma residuals_explicit (m : Model) (p : list float)
      (tmin tmax : Timestamp) (noise : bool) :
  let r := final_residuals m p tmin tmax noise in
  residuals (Some p) (Some tmin) (Some tmax) noise m
  = (if PrimFloat.is_nan (sum_of_squares r)
     then with_stdout (self_stdout m ++ [NanProblem]) m
     else m,
     inr r).
Proof.
  intros r. unfold residuals, bind at 1 2, get, ret.
  cbv beta iota. unfold bind at 1. rewrite simulate_explicit.
  cbv beta iota. fold (raw_residuals m p tmin tmax).
  fold (final_residuals m p tmin tmax noise). fold r.
  unfold sum_of_squares, bind, when, print, modify.
  destruct (PrimFloat.is_nan (py_sum (series_pow2 r))); reflexivity.
Qed.

End Slices.

(** * simulate *)

Section Simulate.

Local Open Scope nat_scope.

(** C4: when every component simulates on the time index it is given,
    [simulate] returns a series with one row per timestamp of the
    generated time index, the sum, row by row and in registration order,
    of the contributions of the components, each computed on its own
    slice of [nparam] consecutive parameters; and changing the slice of
    one component only, the contributions of all the others are the
    same. *)
Theorem simulate_sum_of_contributions (m : Model) (p : list float)
        (tmin tmax : Timestamp) (freq : positive) :
  Forall well_indexed (registry m) ->
  let tindex := date_range tmin tmax freq in
  let cs := contributions (registry m) p tindex 0 in
  exists h,
    simulate (Some p) (Some tmin) (Some tmax) freq m = (m, inr h) /\
    index h = tindex /\
    length h = length tindex /\
    h = fold_left series_add cs (zeros tindex) /\
    series_values h
    = fold_left vec_add (map series_values cs)
                (map (fun _ => 0%float) tindex) /\
    forall pre ts post a b b' c,
      registry m = pre ++ ts :: post ->
      p = a ++ b ++ c ->
      length a = sum_nparam pre ->
      length b = ts_nparam ts ->
      length b' = ts_nparam ts ->
      exists before after,
        cs = before ++ ts_simulate ts b tindex :: after /\
        contributions (registry m) (a ++ b' ++ c) tindex 0
        = before ++ ts_simulate ts b' tindex :: after.
Proof.
  intros Hwi tindex cs.
  exists (fold_left series_add cs (zeros tindex)).
  assert (Hz : index (zeros tindex) = tindex).
  { unfold index, zeros. rewrite map_map. simpl. apply map_id. }
  destruct (fold_series_add tindex cs
              (contributions_well_indexed _ p tindex Hwi 0)
              (zeros tindex) Hz) as [I V].
  split.
  { rewrite simulate_explicit. unfold simulated. fold tindex. fold cs.
    now rewrite (fold_series_iadd_add tindex cs
                   (contributions_well_indexed _ p tindex Hwi 0)
                   (zeros tindex) Hz). }
  split; [exact I|].
  split.
  { rewrite <- I at 2. unfold index. now rewrite length_map. }
  split; [reflexivity|].
  split.
  { rewrite V. f_equal. unfold series_values, zeros.
    now rewrite map_map. }
  intros pre ts post a b b' c Hreg Hp La Lb Lb'.
  exists (contributions pre p tindex 0),
         (contributions post p tindex (sum_nparam pre + ts_nparam ts)).
  unfold cs. rewrite Hreg, !contributions_app. simpl. subst p.
  split.
  - rewrite <- La, <- Lb, slice_middle. reflexivity.
  - rewrite (contributions_prefix pre a (b' ++ c)) by lia.
    rewrite (contributions_prefix pre a (b ++ c)) by lia.
    rewrite (contributions_suffix post a b' b c) by lia.
    rewrite <- La. rewrite <- Lb' at 1 2.
    rewrite slice_middle. now rewrite Lb'.
Qed.

Lemma ramp_index (tindex : list Timestamp) :
  forall x step, index (Examples.ramp tindex x step) = tindex.
Proof.
  induction tindex as [|t r IH]; intros x step; simpl; [reflexivity|].
  now rewrite IH.
Qed.

Lemma model_two_well_indexed :
  Forall well_indexed (registry Examples.model_two).
Proof.
  repeat constructor; intros p tindex; simpl.
  - unfold index. rewrite map_map. simpl. apply map_id.
  - apply ramp_index.
Qed.

(** Two components, the constant first: the first entry goes to the
    constant, the next two to the stress; changing these two leaves the
    contribution of the constant as it is. *)
Lemma simulate_sum_of_contributions_witness :
  let tindex := date_range (Examples.day 0) (Examples.day 2) freq_D in
  exists before after,
    contributions (registry Examples.model_two)
                  ([1%float] ++ [2%float; 3%float] ++ []) tindex 0
    = before
        ++ ts_simulate Examples.recharge [2%float; 3%float] tindex :: after /\
    contributions (registry Examples.model_two)
                  ([1%float] ++ [7%float; 8%float] ++ []) tindex 0
    = before
        ++ ts_simulate Examples.recharge [7%float; 8%float] tindex :: after.
Proof.
  intros tindex.
  destruct (simulate_sum_of_contributions Examples.model_two
              ([1%float] ++ [2%float; 3%float] ++ [])
              (Examples.day 0) (Examples.day 2) freq_D
              model_two_well_indexed)
    as (h & _ & _ & _ & _ & _ & H).
  exact (H [Examples.constant] Examples.recharge []
           [1%float] [2%float; 3%float] [7%float; 8%float] []
           eq_refl eq_refl eq_refl eq_refl eq_refl).
Defined.

(** C6 as stated fails: with three parameters registered, [simulate]
    returns a series on a vector of five entries, and on a vector of one. *)
Lemma simulate_no_length_check :
  sum_nparam (registry Examples.model_two) = 3 /\
  (exists h,
     snd (simulate (Some [1%float; 2%float; 3%float; 4%float; 5%float])
                   (Some (Examples.day 0)) (Some (Examples.day 2)) freq_D
                   Examples.model_two) = inr h) /\
  (exists h,
     snd (simulate (Some [1%float])
                   (Some (Examples.day 0)) (Some (Examples.day 2)) freq_D
                   Examples.model_two) = inr h).
Proof.
  split; [reflexivity|].
  split; eexists; rewrite simulate_explicit; reflexivity.
Qed.

(** C6, amended: [simulate] checks no length.  On every parameter vector
    it returns; the entries after the slices of the components are not
    read, so a vector that is longer than the sum of [nparam] gives the
    result of its first entries, and [residuals] hands its whole vector,
    the parameters of the noise model included, to [simulate]. *)
Theorem simulate_accepts_any_length (m : Model) (p : list float)
        (tmin tmax : Timestamp) (freq : positive) :
  (exists h, simulate (Some p) (Some tmin) (Some tmax) freq m = (m, inr h)) /\
  (forall extra,
     sum_nparam (registry m) <= length p ->
     simulate (Some (p ++ extra)) (Some tmin) (Some tmax) freq m
     = simulate (Some p) (Some tmin) (Some tmax) freq m) /\
  (forall extra,
     sum_nparam (registry m) <= length p ->
     residuals (Some (p ++ extra)) (Some tmin) (Some tmax) false m
     = residuals (Some p) (Some tmin) (Some tmax) false m).
Proof.
  split; [eexists; apply simulate_explicit|].
  assert (E : forall extra f,
             sum_nparam (registry m) <= length p ->
             simulate (Some (p ++ extra)) (Some tmin) (Some tmax) f m
             = simulate (Some p) (Some tmin) (Some tmax) f m).
  { intros extra f H. rewrite !simulate_explicit. unfold simulated.
    now rewrite contributions_prefix by lia. }
  split; [intros extra; apply E|].
  intros extra H. rewrite !residuals_explicit.
  unfold final_residuals, raw_residuals, simulated.
  now rewrite contributions_prefix by lia.
Qed.

Lemma simulate_accepts_any_length_witness :
  simulate (Some ([1%float; 2%float; 3%float] ++ [14%float]))
           (Some (Examples.day 0)) (Some (Examples.day 2)) freq_D
           Examples.model_noise
  = simulate (Some [1%float; 2%float; 3%float])
             (Some (Examples.day 0)) (Some (Examples.day 2)) freq_D
             Examples.model_noise.
Proof.
  refine (proj1 (proj2 (simulate_accepts_any_length Examples.model_noise
                          [1%float; 2%float; 3%float]
                          (Examples.day 0) (Examples.day 2) freq_D))
                [14%float] _).
  vm_compute. lia.
Defined.

End Simulate.

(** * residuals and sse *)

Section Residuals.

(** On an index without duplicates a label gives the value of its row. *)
Lemma series_at_row (s : Series) :
  NoDup (index s) ->
  forall row, In row s -> series_at s (fst row) = snd row.
Proof.
  unfold series_at.
  induction s as [|[u x] r IH]; intros Hnd row Hin; [easy|].
  simpl in Hnd. inversion Hnd as [|? ? Hu Hr]; subst.
  simpl. destruct Hin as [<-|Hin]; simpl.
  - now rewrite Z.eqb_refl.
  - destruct (Z.eqb_spec u (fst row)) as [->|_].
    + exfalso. apply Hu. unfold index. now apply in_map.
    + now apply IH.
Qed.

(** Reindexing a series on the labels of one of its slices gives the
    slice. *)
Lemma reindex_slice (s : Series) (tmin tmax : Timestamp) :
  NoDup (index s) ->
  reindex s (index (series_slice s tmin tmax)) = series_slice s tmin tmax.
Proof.
  intros Hnd. unfold reindex, index. rewrite map_map.
  rewrite <- (map_id (series_slice s tmin tmax)) at 2.
  apply map_ext_in. intros [t x] Hin.
  unfold series_slice in Hin. apply filter_In in Hin as [Hin _].
  f_equal. apply (series_at_row s Hnd (t, x) Hin).
Qed.

Lemma combine_map_same {A B C} (f : A -> B) (g : A -> C) (l : list A) :
  combine (map f l) (map g l) = map (fun x => (f x, g x)) l.
Proof.
  induction l as [|x l IH]; simpl; [reflexivity|]. now rewrite IH.
Qed.

Lemma index_filter (s : Series) (f : Timestamp -> bool) :
  index (filter (fun row => f (fst row)) s) = filter f (index s).
Proof.
  induction s as [|row s IH]; simpl; [reflexivity|].
  destruct (f (fst row)); simpl; now rewrite IH.
Qed.

(** C3: without the noise model, [residuals] returns one residual for
    each observed timestamp between [tmin] and [tmax], in the order of
    the observed series, and nothing else: the observed value minus the
    value of [simulate(parameters, tmin, tmax)] at the same timestamp (NaN
    where the simulated series has no row at that timestamp). *)
Theorem residuals_observed_minus_simulated (m : Model) (p : list float)
        (tmin tmax : Timestamp) :
  NoDup (index (self_oseries m)) ->
  let window := series_slice (self_oseries m) tmin tmax in
  exists sim r m',
    simulate (Some p) (Some tmin) (Some tmax) freq_D m = (m, inr sim) /\
    residuals (Some p) (Some tmin) (Some tmax) false m = (m', inr r) /\
    (forall t x,
       In (t, x) r <->
       exists o, In (t, o) (self_oseries m) /\ tmin <= t <= tmax /\
                 x = (o - series_at sim t)%float) /\
    index r
    = filter (fun t => (tmin <=? t) && (t <=? tmax))
             (index (self_oseries m)) /\
    index r = index window /\
    r = map (fun row => (fst row, (snd row - series_at sim (fst row))%float))
            window.
Proof.
  intros Hnd window.
  exists (simulated m p tmin tmax freq_D).
  assert (E : final_residuals m p tmin tmax false
              = map (fun row =>
                       (fst row,
                        (snd row
                         - series_at (simulated m p tmin tmax freq_D)
                                     (fst row))%float))
                    window).
  { unfold final_residuals, raw_residuals. cbv zeta.
    rewrite (reindex_slice _ tmin tmax Hnd). fold window.
    unfold series_sub, series_binop.
    assert (I : index (reindex (simulated m p tmin tmax freq_D)
                               (index window)) = index window).
    { unfold reindex, index. rewrite map_map. simpl. apply map_id. }
    rewrite I, index_eqb_refl.
    unfold reindex, index. rewrite map_map.
    rewrite <- (map_id window) at 1.
    rewrite combine_map_same, map_map. reflexivity. }
  assert (I : index (final_residuals m p tmin tmax false) = index window).
  { rewrite E. unfold index. rewrite map_map. reflexivity. }
  eexists. eexists.
  split; [apply simulate_explicit|].
  split; [apply residuals_explicit|].
  split; [|split; [|split; [exact I|exact E]]].
  - intros t x. rewrite E. rewrite in_map_iff. unfold window, series_slice.
    split.
    + intros ([t' o] & Heq & Hin). simpl in Heq. injection Heq as <- <-.
      apply filter_In in Hin as [Hin Hw]. simpl in Hw.
      apply andb_true_iff in Hw as [H1 H2].
      apply Z.leb_le in H1, H2. exists o. auto.
    + intros (o & Hin & [H1 H2] & ->). exists (t, o). split; [reflexivity|].
      apply filter_In. split; [exact Hin|]. simpl.
      apply andb_true_iff. split; now apply Z.leb_le.
  - rewrite I. unfold window, series_slice.
    apply (index_filter (self_oseries m)
             (fun t => (tmin <=? t) && (t <=? tmax))).
Qed.

Lemma residuals_observed_minus_simulated_witness :
  exists sim r m',
    simulate (Some [1%float; 2%float; 3%float])
             (Some (Examples.day 2)) (Some (Examples.day 4)) freq_D
             Examples.model_two = (Examples.model_two, inr sim) /\
    residuals (Some [1%float; 2%float; 3%float])
              (Some (Examples.day 2)) (Some (Examples.day 4)) false
              Examples.model_two = (m', inr r) /\
    index r
    = filter (fun t => (Examples.day 2 <=? t) && (t <=? Examples.day 4))
             (index (self_oseries Examples.model_two)).
Proof.
  destruct (residuals_observed_minus_simulated Examples.model_two
              [1%float; 2%float; 3%float] (Examples.day 2) (Examples.day 4))
    as (sim & r & m' & H1 & H2 & _ & H3 & _).
  - vm_compute. repeat constructor; simpl; intuition discriminate.
  - exists sim, r, m'. auto.
Defined.

(** C9 as stated fails: a sum of squares that is infinite is not
    reported.  The model is observed once, at 2^600, and has no
    component; the sum is infinite and nothing is printed. *)
Lemma residuals_infinite_not_reported :
  snd (sse (Some []) (Some (Examples.day 0)) (Some (Examples.day 0)) true
           Examples.model_huge) = inr infinity /\
  self_stdout
    (fst (residuals (Some []) (Some (Examples.day 0))
                    (Some (Examples.day 0)) true Examples.model_huge))
  = self_stdout Examples.model_huge /\
  self_stdout Examples.model_huge = [].
Proof.
  repeat split; vm_compute; reflexivity.
Qed.

(** C9, amended: on every parameter vector [residuals] returns the
    residual series and [sse] their sum of squares, neither raises; when
    the sum of squares is NaN, and only then, [residuals] first prints its
    diagnostic. *)
Theorem residuals_reports_nan (m : Model) (p : list float)
        (tmin tmax : option Timestamp) (noise : bool) :
  let r := final_residuals m p (requested_tmin m tmin)
                           (requested_tmax m tmax) noise in
  let m' := fst (residuals (Some p) tmin tmax noise m) in
  residuals (Some p) tmin tmax noise m = (m', inr r) /\
  sse (Some p) tmin tmax noise m = (m', inr (sum_of_squares r)) /\
  self_stdout m'
  = (self_stdout m
     ++ if PrimFloat.is_nan (sum_of_squares r) then [NanProblem] else [])%list.
Proof.
  intros r m'.
  assert (E : residuals (Some p) tmin tmax noise m
              = residuals (Some p) (Some (requested_tmin m tmin))
                          (Some (requested_tmax m tmax)) noise m).
  { destruct tmin, tmax; reflexivity. }
  unfold m', sse, bind. rewrite E, residuals_explicit. fold r. simpl.
  repeat split.
  destruct (PrimFloat.is_nan (sum_of_squares r)); simpl.
  - reflexivity.
  - now rewrite app_nil_r.
Qed.

(** C5 as stated fails: on a model that was never solved, [residuals]
    without a parameter vector raises an attribute error, on the missing
    [parameters], not the error of an unfit model; so does [simulate]
    without a parameter vector when [tmin] and [tmax] are given. *)
Lemma residuals_unfit_attribute_error :
  residuals None None None true Examples.model_recharge
  = (Examples.model_recharge, inl (AttributeError "parameters")) /\
  snd (simulate None (Some (Examples.day 0)) (Some (Examples.day 2)) freq_D
                Examples.model_recharge)
  = inl (AttributeError "parameters") /\
  AttributeError "parameters" <> unfit_error.
Proof.
  repeat split; try reflexivity. discriminate.
Qed.

(** C5, amended: [simulate] called without [tmin] and [tmax] on a model
    whose period was never set fails at once with the assertion 'model
    needs to be solved first', whatever the parameter vector; on a model
    without a parameter table, [residuals] without a parameter vector
    fails at once as well, with an attribute error on [parameters]. *)
Theorem unfit_model_errors (m : Model) :
  (self_tmin m = None \/ self_tmax m = None ->
   forall p freq, simulate p None None freq m = (m, inl unfit_error)) /\
  (self_parameters m = None ->
   forall tmin tmax noise,
     residuals None tmin tmax noise m
     = (m, inl (AttributeError "parameters"))).
Proof.
  split.
  - intros H p freq. unfold simulate, bind, get, raise. simpl.
    destruct H as [H|H]; rewrite H; [reflexivity|].
    now destruct (self_tmin m).
  - intros H tmin tmax noise.
    unfold residuals, bind at 1 2, get, parameters_optimal_values.
    cbv beta iota. unfold bind at 1 2, get. cbv beta iota.
    rewrite H. reflexivity.
Qed.

Lemma unfit_model_errors_witness :
  simulate None None None freq_D Examples.model_recharge
  = (Examples.model_recharge, inl unfit_error) /\
  residuals None None None true Examples.model_recharge
  = (Examples.model_recharge, inl (AttributeError "parameters")).
Proof.
  split.
  - apply (proj1 (unfit_model_errors Examples.model_recharge)).
    left. reflexivity.
  - apply (proj2 (unfit_model_errors Examples.model_recharge)).
    reflexivity.
Defined.

End Residuals.

(** * initialize *)

Section Initialize.

Local Open Scope nat_scope.

(** [initialize] in one step.  A warm start first reads the [optimal]
    column, which fails without a table; then [nparam] and the table are
    rebuilt; a warm start then assigns the column read to [initial]. *)
Lemma initialize_explicit (initial : bool) (m : Model) :
  let rebuilt :=
    with_parameters (declared_rows m) (with_nparam (total_nparam m) m) in
  initialize initial m
  = if initial then (rebuilt, inr tt)
    else match self_parameters m with
         | None => (m, inl (AttributeError "parameters"))
         | Some old =>
             match assign_initial (declared_rows m) (column_optimal old) with
             | inl e => (rebuilt, inl e)
             | inr df => (with_parameters df rebuilt, inr tt)
             end
         end.
Proof.
  intros rebuilt. unfold rebuilt, declared_rows, total_nparam, registry.
  rewrite <- (sum_nparam_list_sum (self_tseriesdict m)).
  unfold initialize, bind, get, ret, raise, modify, lift.
  destruct initial; simpl.
  - destruct (self_noisemodel m); simpl; rewrite ?Nat.add_0_r; reflexivity.
  - destruct (self_parameters m) as [old|]; [|reflexivity].
    destruct (self_noisemodel m); simpl; rewrite ?Nat.add_0_r;
      destruct (assign_initial _ (column_optimal old)); reflexivity.
Qed.

Lemma labels_eqb_refl (l : list string) : labels_eqb l l = true.
Proof.
  induction l as [|x r IH]; simpl; [reflexivity|].
  now rewrite String.eqb_refl, IH.
Qed.

Lemma labels_eqb_eq (a : list string) :
  forall b, labels_eqb a b = true -> a = b.
Proof.
  induction a as [|x a IH]; intros [|y b] H; simpl in H; try easy.
  apply andb_true_iff in H as [H1 H2].
  apply String.eqb_eq in H1. f_equal; auto.
Qed.

(** Assigning a column with the labels of the frame, in the order of the
    frame, puts its values in [initial] as they are. *)
Lemma assign_initial_same_labels (df : DataFrame) (c : Column) :
  map fst c = map label df ->
  exists df',
    assign_initial df c = inr df' /\
    initial_values df' = map snd c /\
    length df' = length df.
Proof.
  intros H. unfold assign_initial. rewrite H, labels_eqb_refl.
  eexists. split; [reflexivity|].
  assert (L : length df = length c).
  { apply (f_equal (@length _)) in H. rewrite !length_map in H. lia. }
  unfold initial_values. rewrite !map_map, length_map, length_combine.
  split; [|lia].
  simpl. rewrite <- (map_map snd snd). now rewrite combine_snd.
Qed.

(** The number of rows after an assignment to [initial], when an empty
    frame is only assigned an empty column. *)
Lemma assign_initial_length (df df' : DataFrame) (c : Column) :
  (df = [] -> c = []) ->
  assign_initial df c = inr df' ->
  length df' = length df.
Proof.
  intros Hnil. unfold assign_initial.
  destruct (labels_eqb (map fst c) (map label df)) eqn:E.
  - apply labels_eqb_eq in E. intros [= <-].
    apply (f_equal (@length _)) in E. rewrite !length_map in E.
    rewrite length_map, length_combine. lia.
  - destruct df as [|r df].
    + rewrite (Hnil eq_refl) in E. discriminate.
    + destruct (labels_unique (map fst c)); [|discriminate].
      intros [= <-]. simpl. now rewrite length_map.
Qed.

Lemma fold_append_length (tss : list Tseries) :
  Forall (fun ts => length (ts_parameters ts) = ts_nparam ts) tss ->
  forall df,
    length (fold_left (fun df ts => df ++ ts_parameters ts) tss df)
    = length df + sum_nparam tss.
Proof.
  induction 1 as [|ts rest Hts _ IH]; intros df; simpl.
  - unfold sum_nparam. simpl. lia.
  - rewrite IH, length_app, sum_nparam_cons. lia.
Qed.

Lemma declared_rows_length (m : Model) :
  rows_match_nparam m -> length (declared_rows m) = total_nparam m.
Proof.
  intros [Hts Hnm]. unfold declared_rows, append_all, total_nparam.
  rewrite <- (sum_nparam_list_sum (self_tseriesdict m)).
  apply (Forall_map snd
           (fun ts => length (ts_parameters ts) = ts_nparam ts)) in Hts.
  fold (odict_values (self_tseriesdict m)) in Hts.
  fold (registry m) in Hts |- *.
  destruct (self_noisemodel m) as [nm|].
  - rewrite length_app, fold_append_length by exact Hts. simpl. lia.
  - rewrite fold_append_length by exact Hts. simpl. lia.
Qed.

(** C7 as stated fails: a constant is registered on the calibrated model,
    whose [optimal] column is 5 and 6; the warm start then builds a table
    of three rows whose [initial] column is 5, 6 and NaN. *)
Lemma warm_start_after_registration :
  option_map optimal_values (self_parameters Scenarios.model_grown)
  = Some [5%float; 6%float] /\
  snd (initialize false Scenarios.model_grown) = inr tt /\
  option_map initial_values
    (self_parameters (fst (initialize false Scenarios.model_grown)))
  = Some [5%float; 6%float; nan] /\
  Some [5%float; 6%float; nan] <> Some [5%float; 6%float].
Proof.
  repeat split; try (vm_compute; reflexivity).
  intros H. apply (f_equal (option_map (@length float))) in H.
  discriminate.
Qed.

(** C7, amended: on a model whose parameter table has the labels of the
    rows its components and noise model declare, in the same order (the
    registry is the one the table was built from),
    [initialize(initial=False)] returns and the [initial] column of the
    new table is the [optimal] column of the previous one, value for
    value in the same order. *)
Theorem initialize_warm_start (m : Model) (old : DataFrame) :
  self_parameters m = Some old ->
  map label old = map label (declared_rows m) ->
  exists m' new,
    initialize false m = (m', inr tt) /\
    self_parameters m' = Some new /\
    initial_values new = optimal_values old /\
    length new = length old.
Proof.
  intros Hold Hlab.
  destruct (assign_initial_same_labels (declared_rows m) (column_optimal old))
    as (df' & E & V & L).
  { unfold column_optimal. rewrite map_map. simpl. now rewrite <- Hlab. }
  rewrite initialize_explicit, Hold. cbv zeta. rewrite E.
  eexists. exists df'.
  split; [reflexivity|].
  split; [reflexivity|].
  split.
  - rewrite V. unfold column_optimal, optimal_values.
    now rewrite map_map.
  - rewrite L. apply (f_equal (@length _)) in Hlab.
    rewrite !length_map in Hlab. lia.
Qed.

Lemma initialize_warm_start_witness :
  exists m' new,
    initialize false Examples.model_fitted = (m', inr tt) /\
    self_parameters m' = Some new /\
    initial_values new = [5%float; 6%float] /\
    length new = 2.
Proof.
  destruct (self_parameters Examples.model_fitted) as [old|] eqn:Hold;
    [|vm_compute in Hold; discriminate].
  assert (V : optimal_values old = [5%float; 6%float] /\ length old = 2).
  { vm_compute in Hold. injection Hold as <-. split; reflexivity. }
  destruct V as [V L].
  destruct (initialize_warm_start Examples.model_fitted old Hold)
    as (m' & new & H1 & H2 & H3 & H4).
  { vm_compute in Hold. injection Hold as <-. reflexivity. }
  exists m', new. rewrite <- V, <- L. auto.
Defined.

(** C8 as stated fails: a model with a noise model and no component is
    initialized, the noise model is taken away, and [initialize] is called
    for a warm start.  Nothing declares a row any more and [nparam] is 0,
    but the table has the row of the previous table. *)
Lemma warm_start_keeps_old_rows :
  rows_match_nparam Scenarios.model_noise_removed /\
  total_nparam Scenarios.model_noise_removed = 0 /\
  snd (initialize false Scenarios.model_noise_removed) = inr tt /\
  self_nparam (fst (initialize false Scenarios.model_noise_removed))
  = Some 0 /\
  option_map (@length Row)
    (self_parameters (fst (initialize false Scenarios.model_noise_removed)))
  = Some 1.
Proof.
  split; [split; [constructor|exact I]|].
  repeat split; vm_compute; reflexivity.
Qed.

(** C8, amended: when every component and the noise model declare as
    many rows as their [nparam], after a call of [initialize] that is a
    reset, or a warm start on a model that has a table, the rows declared
    being none only if the previous table had none, the number of rows of
    the table is the sum of [nparam] over the registered components plus
    that of the noise model if there is one, and it is the [nparam]
    computed. *)
Theorem initialize_row_count (initial : bool) (m : Model) :
  rows_match_nparam m ->
  (initial = true \/
   exists old, self_parameters m = Some old /\
               (declared_rows m = [] -> old = [])) ->
  let m' := fst (initialize initial m) in
  exists df,
    self_parameters m' = Some df /\
    self_nparam m' = Some (total_nparam m) /\
    length df = total_nparam m /\
    total_nparam m
    = list_sum (map (fun kv => ts_nparam (snd kv)) (self_tseriesdict m))
      + match self_noisemodel m with
        | Some nm => noise_nparam nm
        | None => 0
        end.
Proof.
  intros Hrows Hcase m'. unfold m'. rewrite initialize_explicit. cbv zeta.
  pose proof (declared_rows_length m Hrows) as L.
  destruct initial.
  - exists (declared_rows m). simpl. auto.
  - destruct Hcase as [|(old & Hold & Hnil)]; [discriminate|].
    rewrite Hold.
    destruct (assign_initial (declared_rows m) (column_optimal old))
      as [e|df] eqn:E.
    + exists (declared_rows m). simpl. auto.
    + exists df. simpl. repeat split.
      rewrite <- L. apply (assign_initial_length _ _ (column_optimal old)).
      * intros H. apply Hnil in H. now subst old.
      * exact E.
Qed.

Lemma initialize_row_count_witness :
  exists df,
    self_parameters (fst (initialize true Examples.model_noise)) = Some df /\
    self_nparam (fst (initialize true Examples.model_noise))
    = Some (total_nparam Examples.model_noise) /\
    length df = total_nparam Examples.model_noise /\
    total_nparam Examples.model_noise
    = list_sum (map (fun kv => ts_nparam (snd kv))
                    (self_tseriesdict Examples.model_noise))
      + match self_noisemodel Examples.model_noise with
        | Some nm => noise_nparam nm
        | None => 0
        end.
Proof.
  apply (initialize_row_count true Examples.model_noise).
  - split; [repeat constructor|reflexivity].
  - left. reflexivity.
Defined.

End Initialize.

(** * solve *)

Section Solve.

(** [solve] after its first steps: the solver is called on the model as
    [initialize] leaves it; only when it returns are the [optimal] column
    and the report assigned. *)
Lemma solve_explicit (m : Model) (tmin tmax : option Z) (solver : Solver)
      (report noise initial : bool) :
  solve tmin tmax solver report noise initial m
  = match solve_prepare tmin tmax noise initial m with
    | (m2, inl e) => (m2, inl e)
    | (m2, inr period) =>
        match solver m2 (fst period) (snd period) noise with
        | inl e => (m2, inl e)
        | inr fit =>
            match self_parameters m2 with
            | None => (m2, inl (AttributeError "parameters"))
            | Some df =>
                match assign_optimal df (optimal_params fit) with
                | inl e => (m2, inl e)
                | inr df' =>
                    when report (print (PrintReport (fit_report fit)))
                         (with_report (fit_report fit)
                                      (with_parameters df' m2))
                end
            end
        end
    end.
Proof.
  unfold solve, solve_prepare, bind, get, ret, lift, raise, modify.
  destruct (when _ (print WarnNoNoiseModel) m) as [m0 [e|u]];
    [reflexivity|].
  destruct (check_series tmin tmax m0) as [m1 [e|period]]; [reflexivity|].
  destruct (initialize initial m1) as [m2 [e|u']]; [reflexivity|].
  destruct (solver m2 (fst period) (snd period) noise) as [e|fit];
    [reflexivity|].
  destruct (self_parameters m2) as [df|]; [|reflexivity].
  destruct (assign_optimal df (optimal_params fit)); reflexivity.
Qed.

(** An assignment to [initial] on a frame with rows keeps the [optimal]
    column. *)
Lemma assign_initial_optimal (df df' : DataFrame) (c : Column) :
  df <> [] ->
  assign_initial df c = inr df' ->
  optimal_values df' = optimal_values df.
Proof.
  intros Hne. unfold assign_initial, optimal_values.
  destruct (labels_eqb (map fst c) (map label df)) eqn:E.
  - apply labels_eqb_eq in E. intros [= <-].
    apply (f_equal (@length _)) in E. rewrite !length_map in E.
    rewrite map_map. simpl. revert c E.
    induction df as [|r df IH]; intros [|x c] E; simpl in *; try easy.
    f_equal. destruct df as [|r' df]; [now destruct c|].
    apply IH; [easy|lia].
  - destruct df as [|r df]; [easy|].
    destruct (labels_unique (map fst c)); [|discriminate].
    intros [= <-]. simpl. f_equal. now rewrite map_map.
Qed.

(** What the first steps of [solve] leave when they return. *)
Lemma solve_prepare_returns (m m2 : Model) (tmin tmax : option Z)
      (noise initial : bool) (period : Timestamp * Timestamp) :
  solve_prepare tmin tmax noise initial m = (m2, inr period) ->
  self_report m2 = self_report m /\
  self_tmin m2 = Some (requested_tmin m tmin) /\
  self_tmax m2 = Some (requested_tmax m tmax) /\
  self_nparam m2 = Some (total_nparam m) /\
  exists df,
    self_parameters m2 = Some df /\
    (initial = true -> df = declared_rows m) /\
    (declared_rows m <> [] ->
     optimal_values df = optimal_values (declared_rows m)).
Proof.
  unfold solve_prepare. intros H.
  apply bind_inr in H as (self & m0 & Hget & H).
  injection Hget as <- <-.
  apply bind_inr in H as (u & m0 & Hw & H).
  apply when_print_inr in Hw as [out ->].
  apply bind_inr in H as (r & m1 & Hc & H).
  apply check_series_returns in Hc as (_ & _ & [out' ->] & _).
  apply bind_inr in H as (u' & m3 & Hi & H).
  injection H as <- _.
  rewrite initialize_explicit in Hi. cbv zeta in Hi.
  destruct initial.
  - injection Hi as <-. simpl. repeat split.
    exists (declared_rows m). repeat split.
  - simpl in Hi. destruct (self_parameters m) as [old|]; [|discriminate].
    match type of Hi with
    | context [assign_initial ?d ?c] =>
        change d with (declared_rows m) in Hi;
        destruct (assign_initial (declared_rows m) c) as [e|df] eqn:E
    end; [discriminate|].
    injection Hi as <-. simpl. repeat split.
    exists df. repeat split; [discriminate|].
    intros Hne. apply (assign_initial_optimal _ _ _ Hne E).
Qed.

Lemma nan_neq (x : float) : PrimFloat.is_nan x = false -> nan <> x.
Proof.
  intros H E. rewrite <- E in H. discriminate.
Qed.

(** C2 as stated fails: on a calibrated model, whose [optimal] column is
    5 and 6, a second [solve] whose solver raises leaves an [optimal]
    column of NaN, with a reset and with a warm start alike. *)
Lemma solve_failure_resets_optimal :
  option_map optimal_values (self_parameters Examples.model_fitted)
  = Some [5%float; 6%float] /\
  (forall initial,
     snd (solve None None Examples.solver_fails false false initial
                Examples.model_fitted)
     = inl (SolverError "no convergence") /\
     option_map optimal_values
       (self_parameters
          (fst (solve None None Examples.solver_fails false false initial
                      Examples.model_fitted)))
     = Some [nan; nan]) /\
  Some [nan; nan] <> Some [5%float; 6%float].
Proof.
  split; [vm_compute; reflexivity|].
  split.
  - intros [|]; split; vm_compute; reflexivity.
  - intros H. apply (nan_neq 5%float); [reflexivity|].
    exact (f_equal (fun o => match o with
                             | Some (x :: _) => x
                             | _ => nan
                             end) H).
Qed.

(** C2, amended: when the first steps of [solve] return and the solver
    raises, [solve] raises the same exception and the stored report is
    the one of before; but the period is the one just requested, and the
    parameter table is the one [initialize] has just rebuilt: its
    [optimal] column holds the values that the components and the noise
    model declare, not those of the previous calibration. *)
Theorem solve_solver_failure (m m2 : Model) (tmin tmax : option Z)
        (solver : Solver) (report noise initial : bool)
        (period : Timestamp * Timestamp) (e : exn) :
  solve_prepare tmin tmax noise initial m = (m2, inr period) ->
  solver m2 (fst period) (snd period) noise = inl e ->
  solve tmin tmax solver report noise initial m = (m2, inl e) /\
  self_report m2 = self_report m /\
  self_tmin m2 = Some (requested_tmin m tmin) /\
  self_tmax m2 = Some (requested_tmax m tmax) /\
  self_nparam m2 = Some (total_nparam m) /\
  exists df,
    self_parameters m2 = Some df /\
    (initial = true -> df = declared_rows m) /\
    (declared_rows m <> [] ->
     optimal_values df = optimal_values (declared_rows m)).
Proof.
  intros Hp Hs. split.
  - rewrite solve_explicit, Hp, Hs. reflexivity.
  - apply (solve_prepare_returns _ _ _ _ _ _ _ Hp).
Qed.

Lemma solve_solver_failure_witness :
  solve None None Examples.solver_fails false false true
        Examples.model_fitted
  = (Examples.model_failed, inl (SolverError "no convergence")) /\
  self_report Examples.model_failed = self_report Examples.model_fitted.
Proof.
  assert (Hp : solve_prepare None None false true Examples.model_fitted
               = (Examples.model_failed,
                  inr (Examples.day 0, Examples.day 10))).
  { vm_compute. reflexivity. }
  pose proof (solve_solver_failure Examples.model_fitted
                Examples.model_failed None None Examples.solver_fails
                false false true (Examples.day 0, Examples.day 10)
                (SolverError "no convergence") Hp eq_refl) as H.
  split; [exact (proj1 H)|exact (proj1 (proj2 H))].
Defined.

End Solve.

(** * Registration of components *)

Section Registration.

Context {A : Type}.

Lemma odict_get_set_same (d : list (string * A)) (k : string) (v : A) :
  odict_get (odict_set d k v) k = Some v.
Proof.
  induction d as [|[k' v'] r IH]; simpl.
  - now rewrite String.eqb_refl.
  - destruct (String.eqb k' k) eqn:E; simpl.
    + now rewrite String.eqb_refl.
    + now rewrite E.
Qed.

Lemma odict_get_set_other (d : list (string * A)) (k k0 : string) (v : A) :
  k0 <> k -> odict_get (odict_set d k v) k0 = odict_get d k0.
Proof.
  intros Hne. induction d as [|[k' v'] r IH]; simpl.
  - destruct (String.eqb_spec k k0); [congruence|reflexivity].
  - destruct (String.eqb_spec k' k) as [->|Hk]; simpl.
    + destruct (String.eqb_spec k k0); [congruence|reflexivity].
    + now rewrite IH.
Qed.

Lemma odict_get_None (d : list (string * A)) (k : string) :
  odict_get d k = None <-> ~ In k (odict_keys d).
Proof.
  induction d as [|[k' v'] r IH]; simpl; [tauto|].
  destruct (String.eqb_spec k' k) as [->|Hk].
  - split; [discriminate|]. intros H. exfalso. apply H. now left.
  - rewrite IH. split; [intros H [E|E]; auto|tauto].
Qed.

Lemma odict_set_new (d : list (string * A)) (k : string) (v : A) :
  odict_get d k = None -> odict_set d k v = (d ++ [(k, v)])%list.
Proof.
  induction d as [|[k' v'] r IH]; simpl; [reflexivity|].
  destruct (String.eqb k' k); [discriminate|].
  intros H. now rewrite IH.
Qed.

Lemma odict_set_known (d : list (string * A)) (k : string) (v : A) :
  odict_get d k <> None ->
  odict_keys (odict_set d k v) = odict_keys d.
Proof.
  induction d as [|[k' v'] r IH]; simpl; [easy|].
  destruct (String.eqb_spec k' k) as [->|Hk]; simpl.
  - reflexivity.
  - intros H. now rewrite IH.
Qed.

Lemma odict_set_NoDup (d : list (string * A)) (k : string) (v : A) :
  NoDup (odict_keys d) -> NoDup (odict_keys (odict_set d k v)).
Proof.
  intros H. destruct (odict_get d k) as [x|] eqn:E.
  - rewrite odict_set_known; [exact H|congruence].
  - rewrite (odict_set_new d k v E). unfold odict_keys.
    rewrite map_app. simpl.
    apply odict_get_None in E.
    apply NoDup_app; [exact H|repeat constructor; easy|].
    intros x Hx [<-|[]]. now apply E.
Qed.

End Registration.

Section AddTseries.

(** X1: after [addtseries], the dictionary gives the component under its
    name and, under every other name, what it gave before; the parameter
    table and [nparam] are left as they were, they are only rebuilt by
    [initialize]. *)
Theorem addtseries_lookup (tseries : Tseries) (m : Model) :
  let m' := fst (addtseries tseries m) in
  odict_get (self_tseriesdict m') (ts_name tseries) = Some tseries /\
  (forall k, k <> ts_name tseries ->
             odict_get (self_tseriesdict m') k
             = odict_get (self_tseriesdict m) k) /\
  self_parameters m' = self_parameters m /\
  self_nparam m' = self_nparam m.
Proof.
  simpl. split; [apply odict_get_set_same|].
  split; [|split; reflexivity].
  intros k Hk. now apply odict_get_set_other.
Qed.

(** X2: [addtseries] keeps the names of the dictionary distinct.  A
    component with a new name comes last in the registration order; one
    with a known name takes the place of the component of that name, the
    order of the names and their number unchanged. *)
Theorem addtseries_order (tseries : Tseries) (m : Model) :
  NoDup (odict_keys (self_tseriesdict m)) ->
  let m' := fst (addtseries tseries m) in
  NoDup (odict_keys (self_tseriesdict m')) /\
  (odict_get (self_tseriesdict m) (ts_name tseries) = None ->
   registry m' = (registry m ++ [tseries])%list) /\
  (odict_get (self_tseriesdict m) (ts_name tseries) <> None ->
   odict_keys (self_tseriesdict m') = odict_keys (self_tseriesdict m) /\
   length (registry m') = length (registry m)).
Proof.
  intros Hnd. simpl. split; [now apply odict_set_NoDup|]. split.
  - intros Hnew. unfold registry, odict_values. simpl.
    rewrite (odict_set_new _ _ tseries Hnew), map_app. reflexivity.
  - intros Hknown.
    pose proof (odict_set_known (self_tseriesdict m) (ts_name tseries)
                                tseries Hknown) as E.
    split; [exact E|].
    unfold registry, odict_values. simpl.
    apply (f_equal (@length _)) in E. unfold odict_keys in E.
    now rewrite !length_map in *.
Qed.

Lemma addtseries_order_witness :
  registry (fst (addtseries Examples.recharge
                            (fst (addtseries Examples.constant
                                             (init Examples.oseries11)))))
  = (registry (fst (addtseries Examples.constant (init Examples.oseries11)))
     ++ [Examples.recharge])%list.
Proof.
  refine (proj1 (proj2 (addtseries_order Examples.recharge
                          (fst (addtseries Examples.constant
                                           (init Examples.oseries11)))
                          _)) eq_refl).
  repeat constructor; simpl; intuition discriminate.
Defined.

End AddTseries.

(** * What the methods change *)

Section Effects.

Lemma residuals_cases (m : Model) (p : option (list float))
      (tmin tmax : option Timestamp) (noise : bool) :
  residuals p tmin tmax noise m
  = match match p with
          | Some v => Some v
          | None => option_map optimal_values (self_parameters m)
          end with
    | None => (m, inl (AttributeError "parameters"))
    | Some v =>
        residuals (Some v) (Some (requested_tmin m tmin))
                  (Some (requested_tmax m tmax)) noise m
    end.
Proof.
  destruct p as [v|]; [destruct tmin, tmax; reflexivity|].
  unfold residuals, bind at 1 2, get, parameters_optimal_values.
  cbv beta iota. unfold bind at 1 2, get. cbv beta iota.
  destruct (self_parameters m) as [df|]; [|reflexivity].
  destruct tmin, tmax; reflexivity.
Qed.

Lemma with_stdout_same (m : Model) : with_stdout (self_stdout m) m = m.
Proof. now destruct m. Qed.

(** X3: [simulate] never changes the model, whether it returns or
    raises; [residuals] changes nothing but the output, to which it adds
    at most its NaN diagnostic; [sse] leaves the model as [residuals]
    does. *)
Theorem simulate_residuals_effects (m : Model) (p : option (list float))
        (tmin tmax : option Timestamp) (freq : positive) (noise : bool) :
  fst (simulate p tmin tmax freq m) = m /\
  (exists out,
     fst (residuals p tmin tmax noise m)
     = with_stdout (self_stdout m ++ out) m /\
     (out = [] \/ out = [NanProblem])) /\
  fst (sse p tmin tmax noise m) = fst (residuals p tmin tmax noise m).
Proof.
  split; [|split].
  - unfold simulate, parameters_optimal_values, bind, get, raise, ret.
    destruct tmin, tmax, (self_tmin m), (self_tmax m), p,
      (self_parameters m); reflexivity.
  - rewrite residuals_cases.
    destruct (match p with
              | Some v => Some v
              | None => option_map optimal_values (self_parameters m)
              end) as [v|].
    + rewrite residuals_explicit.
      destruct (PrimFloat.is_nan _).
      * exists [NanProblem]. auto.
      * exists []. rewrite app_nil_r, with_stdout_same. auto.
    + exists []. rewrite app_nil_r, with_stdout_same. auto.
  - unfold sse, bind.
    now destruct (residuals p tmin tmax noise m) as [m' [e|r]].
Qed.

End Effects.

(** * More on the period check *)

Section PeriodCheck.

(** [check_series] in one step, on bounds that are timestamps. *)
Lemma check_series_explicit (m : Model) (tmin tmax : option Z) :
  (forall t, tmin = Some t -> is_timestamp t) ->
  (forall t, tmax = Some t -> is_timestamp t) ->
  let smin := requested_tmin m tmin in
  let smax := requested_tmax m tmax in
  check_series tmin tmax m
  = (with_period smin smax
       (with_stdout (self_stdout m ++ period_warnings m smin smax) m),
     inr (clipped m smin smax)).
Proof.
  intros Vmin Vmax smin smax.
  assert (Bmin : match tmin with
                 | Some t => is_timestampb t = true
                 | None => True
                 end).
  { destruct tmin as [t|]; [|exact I].
    apply is_timestampb_spec. now apply Vmin. }
  assert (Bmax : match tmax with
                 | Some t => is_timestampb t = true
                 | None => True
                 end).
  { destruct tmax as [t|]; [|exact I].
    apply is_timestampb_spec. now apply Vmax. }
  unfold smin, smax, period_warnings, clipped, tracking, registry.
  unfold check_series, to_Timestamp, when, print, modify, bind, get, ret.
  destruct tmin as [t|]; destruct tmax as [u|]; simpl;
    rewrite ?Bmin, ?Bmax; simpl;
    repeat match goal with
           | |- context [index_mem ?x ?l] => destruct (index_mem x l)
           end;
    simpl; rewrite ?app_nil_r, <- ?app_assoc; reflexivity.
Qed.

Lemma index_mem_In (t : Timestamp) (idx : list Timestamp) :
  In t idx -> index_mem t idx = true.
Proof.
  induction idx as [|u r IH]; simpl; [easy|].
  intros [->|H].
  - now rewrite Z.eqb_refl.
  - rewrite (IH H). apply orb_true_r.
Qed.

(** A call of [check_series] that returns stores the bounds it starts
    from, prints one warning for each of them that is not an observed
    timestamp, in this order, and changes nothing else; it returns these
    bounds clipped by the tracking window. *)
Lemma check_series_effect (m m' : Model) (tmin tmax : option Z)
        (r : Timestamp * Timestamp) :
  check_series tmin tmax m = (m', inr r) ->
  let smin := requested_tmin m tmin in
  let smax := requested_tmax m tmax in
  m' = with_period smin smax
         (with_stdout (self_stdout m ++ period_warnings m smin smax) m) /\
  r = clipped m smin smax.
Proof.
  intros H smin smax.
  pose proof (check_series_returns _ _ _ _ _ H) as (Vmin & Vmax & _).
  rewrite (check_series_explicit m tmin tmax Vmin Vmax) in H.
  injection H as <- <-. split; reflexivity.
Qed.

(** X5: [check_series] is idempotent.  Called again with the same
    arguments on the model it left, it returns the same bounds and stores
    the same period. *)
Theorem check_series_twice (m m1 : Model) (tmin tmax : option Z)
        (r : Timestamp * Timestamp) :
  check_series tmin tmax m = (m1, inr r) ->
  exists m2,
    check_series tmin tmax m1 = (m2, inr r) /\
    self_tmin m2 = self_tmin m1 /\
    self_tmax m2 = self_tmax m1.
Proof.
  intros H.
  pose proof (check_series_returns _ _ _ _ _ H) as (Vmin & Vmax & _).
  apply check_series_effect in H as [-> ->].
  eexists. split.
  - rewrite (check_series_explicit _ tmin tmax Vmin Vmax). reflexivity.
  - split; reflexivity.
Qed.

Lemma check_series_twice_witness :
  exists m2,
    check_series (Some (Examples.day 1)) None Examples.model_recharge_checked
    = (m2, inr (Examples.day 1, Examples.day 10)) /\
    self_tmin m2 = self_tmin Examples.model_recharge_checked /\
    self_tmax m2 = self_tmax Examples.model_recharge_checked.
Proof.
  assert (E : check_series (Some (Examples.day 1)) None
                           Examples.model_recharge
              = (Examples.model_recharge_checked,
                 inr (Examples.day 1, Examples.day 10))).
  { vm_compute. reflexivity. }
  exact (check_series_twice _ _ _ _ _ E).
Defined.

(** X6: on an observed series that is not empty and whose labels are
    timestamps, [check_series] returns the bounds it starts from as they
    are, the request or the observed extent, whatever the windows the
    components declare; the period it returns is the period it stores. *)
Theorem check_series_returns_request (m m' : Model) (tmin tmax : option Z)
        (r : Timestamp * Timestamp) :
  oseries_ok m ->
  check_series tmin tmax m = (m', inr r) ->
  r = (requested_tmin m tmin, requested_tmax m tmax) /\
  self_tmin m' = Some (fst r) /\
  self_tmax m' = Some (snd r).
Proof.
  intros Hok H.
  pose proof (check_series_no_clip _ _ _ _ _ Hok H) as ->.
  apply check_series_effect in H as [-> _].
  repeat split.
Qed.

Lemma forallb_is_timestamp (l : list Z) :
  forallb is_timestampb l = true -> Forall is_timestamp l.
Proof.
  intros H. apply Forall_forall. intros t Ht.
  apply is_timestampb_spec.
  rewrite forallb_forall in H. now apply H.
Qed.

Lemma oseries11_ok : oseries_ok Examples.model_recharge.
Proof.
  split; [discriminate|].
  apply forallb_is_timestamp. vm_compute. reflexivity.
Qed.

Lemma check_series_returns_request_witness :
  (Examples.day 1, Examples.day 10)
  = (requested_tmin Examples.model_recharge (Some (Examples.day 1)),
     requested_tmax Examples.model_recharge None).
Proof.
  assert (E : check_series (Some (Examples.day 1)) None
                           Examples.model_recharge
              = (Examples.model_recharge_checked,
                 inr (Examples.day 1, Examples.day 10))).
  { vm_compute. reflexivity. }
  exact (proj1 (check_series_returns_request _ _ _ _ _ oseries11_ok E)).
Defined.

(** X7: on an observed series that is not empty, [check_series] without
    bounds returns, stores the first and the last observed timestamp and
    prints no warning. *)
Theorem check_series_default_silent (m : Model) :
  self_oseries m <> [] ->
  let smin := index_min (index (self_oseries m)) in
  let smax := index_max (index (self_oseries m)) in
  check_series None None m
  = (with_period smin smax m, inr (clipped m smin smax)) /\
  In smin (index (self_oseries m)) /\
  In smax (index (self_oseries m)).
Proof.
  intros Hne smin smax.
  assert (Imin : In smin (index (self_oseries m))).
  { unfold smin. destruct (self_oseries m) as [|[t x] s]; [easy|].
    apply (fold_left_min_In (map fst s) t). }
  assert (Imax : In smax (index (self_oseries m))).
  { unfold smax. destruct (self_oseries m) as [|[t x] s]; [easy|].
    apply (fold_left_max_In (map fst s) t). }
  split; [|split; assumption].
  rewrite check_series_explicit by discriminate.
  simpl. unfold period_warnings. fold smin smax.
  rewrite (index_mem_In _ _ Imin), (index_mem_In _ _ Imax).
  simpl. now rewrite app_nil_r, with_stdout_same.
Qed.

Lemma check_series_default_silent_witness :
  check_series None None Examples.model_recharge
  = (with_period (index_min (index (self_oseries Examples.model_recharge)))
                 (index_max (index (self_oseries Examples.model_recharge)))
                 Examples.model_recharge,
     inr (clipped Examples.model_recharge
            (index_min (index (self_oseries Examples.model_recharge)))
            (index_max (index (self_oseries Examples.model_recharge))))).
Proof.
  refine (proj1 (check_series_default_silent Examples.model_recharge _)).
  discriminate.
Defined.

End PeriodCheck.

(** * More on the residuals *)

Section MoreResiduals.

Local Open Scope nat_scope.

(** The residuals without the noise model, row by row. *)
Lemma final_residuals_rows (m : Model) (p : list float)
      (tmin tmax : Timestamp) :
  NoDup (index (self_oseries m)) ->
  final_residuals m p tmin tmax false
  = map (fun row =>
           (fst row,
            (snd row
             - series_at (simulated m p tmin tmax freq_D) (fst row))%float))
        (series_slice (self_oseries m) tmin tmax).
Proof.
  intros Hnd. unfold final_residuals, raw_residuals. cbv zeta.
  rewrite (reindex_slice _ tmin tmax Hnd).
  set (w := series_slice (self_oseries m) tmin tmax).
  unfold series_sub, series_binop.
  assert (I : index (reindex (simulated m p tmin tmax freq_D) (index w))
              = index w).
  { unfold reindex, index. rewrite map_map. simpl. apply map_id. }
  rewrite I, index_eqb_refl.
  unfold reindex, index. rewrite map_map.
  rewrite <- (map_id w) at 1.
  rewrite combine_map_same, map_map. reflexivity.
Qed.

Lemma residuals_observed_shape (m : Model) (p : list float)
      (tmin tmax : Timestamp) :
  NoDup (index (self_oseries m)) ->
  exists r m',
    residuals (Some p) (Some tmin) (Some tmax) false m = (m', inr r) /\
    index r = index (series_slice (self_oseries m) tmin tmax) /\
    r = map (fun row =>
               (fst row,
                (snd row
                 - series_at (simulated m p tmin tmax freq_D)
                             (fst row))%float))
            (series_slice (self_oseries m) tmin tmax).
Proof.
  intros Hnd. eexists. eexists.
  split; [apply residuals_explicit|].
  rewrite (final_residuals_rows m p tmin tmax Hnd).
  split; [|reflexivity].
  unfold index. now rewrite map_map.
Qed.

(** X8: without a noise model the flag [noise] is not read: [residuals]
    and [sse] with [noise=True] are [residuals] and [sse] with
    [noise=False], on every argument. *)
Theorem residuals_noise_flag_without_model (m : Model)
        (p : option (list float)) (tmin tmax : option Timestamp) :
  self_noisemodel m = None ->
  residuals p tmin tmax true m = residuals p tmin tmax false m /\
  sse p tmin tmax true m = sse p tmin tmax false m.
Proof.
  intros H.
  assert (E : residuals p tmin tmax true m = residuals p tmin tmax false m).
  { rewrite !residuals_cases.
    destruct (match p with
              | Some v => Some v
              | None => option_map optimal_values (self_parameters m)
              end) as [v|]; [|reflexivity].
    rewrite !residuals_explicit. unfold final_residuals.
    now rewrite H. }
  split; [exact E|]. unfold sse, bind. now rewrite E.
Qed.

Lemma residuals_noise_flag_without_model_witness :
  residuals (Some [1%float; 2%float; 3%float]) None None true
            Examples.model_two
  = residuals (Some [1%float; 2%float; 3%float]) None None false
              Examples.model_two.
Proof.
  exact (proj1 (residuals_noise_flag_without_model Examples.model_two
                  (Some [1%float; 2%float; 3%float]) None None eq_refl)).
Defined.

Lemma tail_slice_app (q a : list float) (n : nat) :
  length a = n -> n <> 0 -> tail_slice (q ++ a) n = a.
Proof.
  intros L Hn. unfold tail_slice.
  destruct (Nat.eqb_spec n 0) as [E|_]; [contradiction|].
  rewrite length_app, L.
  replace (length q + n - n) with (length q) by lia.
  rewrite skipn_app, skipn_all, Nat.sub_diag. reflexivity.
Qed.

Lemma raw_residuals_prefix (m : Model) (q a : list float)
      (tmin tmax : Timestamp) :
  sum_nparam (registry m) <= length q ->
  raw_residuals m (q ++ a) tmin tmax = raw_residuals m q tmin tmax.
Proof.
  intros H. unfold raw_residuals, simulated.
  now rewrite contributions_prefix by lia.
Qed.

(** X9: with a noise model and [noise=True], on a vector made of the
    parameters of the components and then those of the noise model,
    [residuals] gives what the noise model makes of the residuals of the
    first part, of the elapsed times on the window and of the second
    part.  A noise model without parameters is handed the whole vector:
    [parameters[-0:]]. *)
Theorem residuals_through_noise_model (m : Model) (nm : NoiseModel)
        (q a : list float) (tmin tmax : Timestamp) :
  self_noisemodel m = Some nm ->
  length q = sum_nparam (registry m) ->
  length a = noise_nparam nm ->
  let tindex := index (window m tmin tmax) in
  let handed := if noise_nparam nm =? 0 then q else a in
  exists m',
    residuals (Some (q ++ a)) (Some tmin) (Some tmax) true m
    = (m', inr (noise_simulate nm (raw_residuals m q tmin tmax)
                               (reindex (self_odelt m) tindex)
                               handed tindex)).
Proof.
  intros Hnm Lq La tindex handed.
  rewrite residuals_explicit. eexists. f_equal. f_equal.
  unfold final_residuals. rewrite Hnm.
  rewrite raw_residuals_prefix by lia.
  fold (window m tmin tmax). fold tindex. f_equal.
  unfold handed.
  destruct (Nat.eqb_spec (noise_nparam nm) 0) as [E|E].
  - unfold tail_slice. rewrite E. simpl.
    rewrite E in La. apply length_zero_iff_nil in La. subst a.
    apply app_nil_r.
  - now apply tail_slice_app.
Qed.

Lemma residuals_through_noise_model_witness :
  exists m',
    residuals (Some ([1%float; 2%float; 3%float] ++ [14%float]))
              (Some (Examples.day 2)) (Some (Examples.day 4)) true
              Examples.model_noise
    = (m', inr (noise_simulate Examples.noise1
                  (raw_residuals Examples.model_noise
                     [1%float; 2%float; 3%float]
                     (Examples.day 2) (Examples.day 4))
                  (reindex (self_odelt Examples.model_noise)
                     (index (window Examples.model_noise
                               (Examples.day 2) (Examples.day 4))))
                  (if noise_nparam Examples.noise1 =? 0
                   then [1%float; 2%float; 3%float] else [14%float])
                  (index (window Examples.model_noise
                            (Examples.day 2) (Examples.day 4))))).
Proof.
  exact (residuals_through_noise_model Examples.model_noise Examples.noise1
           [1%float; 2%float; 3%float] [14%float]
           (Examples.day 2) (Examples.day 4) eq_refl eq_refl eq_refl).
Defined.

Lemma fold_left_min_le (r : list Z) :
  forall t u, In u (t :: r) -> (fold_left Z.min r t <= u)%Z.
Proof.
  induction r as [|v r IH]; intros t u H; simpl in *.
  - destruct H as [<-|[]]. lia.
  - destruct H as [E|[E|H]]; [| |apply IH; now right];
      (eapply Z.le_trans; [apply IH; left; reflexivity|lia]).
Qed.

Lemma fold_left_max_ge (r : list Z) :
  forall t u, In u (t :: r) -> (u <= fold_left Z.max r t)%Z.
Proof.
  induction r as [|v r IH]; intros t u H; simpl in *.
  - destruct H as [<-|[]]. lia.
  - destruct H as [E|[E|H]]; [| |apply IH; now right];
      (eapply Z.le_trans; [|apply IH; left; reflexivity]; lia).
Qed.

Lemma filter_all {B} (f : B -> bool) (l : list B) :
  (forall x, In x l -> f x = true) -> filter f l = l.
Proof.
  induction l as [|x l IH]; intros H; simpl; [reflexivity|].
  rewrite (H x (or_introl eq_refl)). f_equal.
  apply IH. intros y Hy. apply H. now right.
Qed.

(** From the first to the last label, the slice is the whole series. *)
Lemma series_slice_all (s : Series) :
  series_slice s (index_min (index s)) (index_max (index s)) = s.
Proof.
  unfold series_slice. apply filter_all.
  intros row Hin. apply andb_true_iff.
  assert (Hi : In (fst row) (index s)) by now apply in_map.
  destruct s as [|[t x] r]; [easy|]. simpl in Hi |- *.
  split; apply Z.leb_le.
  - now apply fold_left_min_le.
  - now apply fold_left_max_ge.
Qed.

(** X10: without [tmin] and [tmax], [residuals] works on the whole
    observed series, not on the stored period: without the noise model it
    returns one residual for each observed timestamp, in order. *)
Theorem residuals_default_window (m : Model) (p : list float) :
  NoDup (index (self_oseries m)) ->
  exists r m',
    residuals (Some p) None None false m = (m', inr r) /\
    index r = index (self_oseries m) /\
    r = map (fun row =>
               (fst row,
                (snd row
                 - series_at (simulated m p
                                (index_min (index (self_oseries m)))
                                (index_max (index (self_oseries m)))
                                freq_D)
                             (fst row))%float))
            (self_oseries m).
Proof.
  intros Hnd.
  destruct (residuals_observed_shape m p
              (index_min (index (self_oseries m)))
              (index_max (index (self_oseries m))) Hnd)
    as (r & m' & H & I & E).
  exists r, m'.
  rewrite series_slice_all in I, E.
  split; [|split; assumption].
  rewrite residuals_cases. exact H.
Qed.

Lemma oseries11_NoDup : NoDup (index (self_oseries Examples.model_two)).
Proof.
  vm_compute. repeat constructor; simpl; intuition discriminate.
Qed.

Lemma residuals_default_window_witness :
  exists r m',
    residuals (Some [1%float; 2%float; 3%float]) None None false
              Examples.model_two = (m', inr r) /\
    index r = index (self_oseries Examples.model_two) /\
    r = map (fun row =>
               (fst row,
                (snd row
                 - series_at
                     (simulated Examples.model_two
                        [1%float; 2%float; 3%float]
                        (index_min (index (self_oseries Examples.model_two)))
                        (index_max (index (self_oseries Examples.model_two)))
                        freq_D)
                     (fst row))%float))
            (self_oseries Examples.model_two).
Proof.
  exact (residuals_default_window Examples.model_two
           [1%float; 2%float; 3%float] oseries11_NoDup).
Defined.

Lemma filter_none {B} (f : B -> bool) (l : list B) :
  (forall x, In x l -> f x = false) -> filter f l = [].
Proof.
  induction l as [|x l IH]; intros H; simpl; [reflexivity|].
  rewrite (H x (or_introl eq_refl)).
  apply IH. intros y Hy. apply H. now right.
Qed.

(** X11: when no observed timestamp lies between [tmin] and [tmax], as
    when [tmax] is before [tmin], [residuals] without the noise model
    returns the empty series, [sse] returns 0, and nothing is printed. *)
Theorem residuals_empty_window (m : Model) (p : list float)
        (tmin tmax : Timestamp) :
  (forall t, In t (index (self_oseries m)) -> ~ (tmin <= t <= tmax)%Z) ->
  residuals (Some p) (Some tmin) (Some tmax) false m = (m, inr []) /\
  sse (Some p) (Some tmin) (Some tmax) false m = (m, inr 0%float).
Proof.
  intros H.
  assert (W : series_slice (self_oseries m) tmin tmax = []).
  { unfold series_slice. apply filter_none. intros row Hin.
    cbv beta. apply andb_false_iff.
    assert (Hi : In (fst row) (index (self_oseries m)))
      by now apply in_map.
    specialize (H _ Hi).
    destruct (tmin <=? fst row)%Z eqn:E1; [|now left].
    destruct (fst row <=? tmax)%Z eqn:E2; [|now right].
    exfalso. apply H. apply Z.leb_le in E1, E2. lia. }
  assert (E : residuals (Some p) (Some tmin) (Some tmax) false m
              = (m, inr [])).
  { rewrite residuals_explicit.
    unfold final_residuals, raw_residuals. rewrite W. reflexivity. }
  split; [exact E|]. unfold sse, bind. rewrite E. reflexivity.
Qed.

Lemma residuals_empty_window_witness :
  residuals (Some [1%float; 2%float; 3%float])
            (Some (Examples.day 5)) (Some (Examples.day 4)) false
            Examples.model_two
  = (Examples.model_two, inr []) /\
  sse (Some [1%float; 2%float; 3%float])
      (Some (Examples.day 5)) (Some (Examples.day 4)) false
      Examples.model_two
  = (Examples.model_two, inr 0%float).
Proof.
  apply (residuals_empty_window Examples.model_two
           [1%float; 2%float; 3%float] (Examples.day 5) (Examples.day 4)).
  intros t _ [H1 H2].
  assert (H : (Examples.day 5 <= Examples.day 4)%Z) by lia.
  vm_compute in H. apply H. reflexivity.
Defined.

End MoreResiduals.

(** * More on solve and initialize *)

Section MoreSolve.

Local Open Scope nat_scope.

Lemma assign_optimal_same_length (df : DataFrame) (v : list float) :
  length v = length df ->
  exists df',
    assign_optimal df v = inr df' /\
    optimal_values df' = v /\
    initial_values df' = initial_values df /\
    map label df' = map label df.
Proof.
  intros L. unfold assign_optimal. rewrite L, Nat.eqb_refl.
  eexists. split; [reflexivity|].
  unfold optimal_values, initial_values. rewrite !map_map. simpl.
  clear - L. revert v L.
  induction df as [|r df IH]; intros [|x v] L; simpl in *; try easy.
  destruct (IH v) as (I1 & I2 & I3); [lia|].
  repeat split; f_equal; assumption.
Qed.

(** X12: when the first steps of [solve] return and the solver gives a
    fit with one value for each row of the table, [solve] returns; the
    [optimal] column is then the vector of the fit, in order, the stored
    report is the report of the fit, which is printed when [report] is
    set, and [simulate] without arguments simulates the fit on the stored
    period. *)
Theorem solve_success (m m2 : Model) (tmin tmax : option Z)
        (solver : Solver) (report noise initial : bool)
        (period : Timestamp * Timestamp) (fit : Fit) :
  solve_prepare tmin tmax noise initial m = (m2, inr period) ->
  solver m2 (fst period) (snd period) noise = inr fit ->
  (forall df, self_parameters m2 = Some df ->
              length (optimal_params fit) = length df) ->
  let m3 := fst (solve tmin tmax solver report noise initial m) in
  solve tmin tmax solver report noise initial m = (m3, inr tt) /\
  option_map optimal_values (self_parameters m3)
  = Some (optimal_params fit) /\
  self_report m3 = Some (fit_report fit) /\
  self_stdout m3
  = (self_stdout m2
     ++ if report then [PrintReport (fit_report fit)] else [])%list /\
  forall freq,
    simulate None None None freq m3
    = (m3, inr (simulated m3 (optimal_params fit)
                          (requested_tmin m tmin) (requested_tmax m tmax)
                          freq)).
Proof.
  intros Hp Hs Hl m3.
  destruct (solve_prepare_returns _ _ _ _ _ _ _ Hp)
    as (_ & Hmin & Hmax & _ & df & Hdf & _).
  destruct (assign_optimal_same_length df (optimal_params fit) (Hl df Hdf))
    as (df' & Ha & Hv & _).
  assert (E : solve tmin tmax solver report noise initial m
              = (with_stdout
                   (self_stdout m2
                    ++ if report then [PrintReport (fit_report fit)] else [])
                   (with_report (fit_report fit) (with_parameters df' m2)),
                 inr tt)).
  { rewrite solve_explicit, Hp, Hs, Hdf, Ha.
    destruct report; simpl; [reflexivity|].
    now rewrite app_nil_r. }
  unfold m3. rewrite E. cbn [fst].
  set (m' := with_stdout _ _).
  assert (Pp : self_parameters m' = Some df') by reflexivity.
  assert (Pmin : self_tmin m' = Some (requested_tmin m tmin))
    by exact Hmin.
  assert (Pmax : self_tmax m' = Some (requested_tmax m tmax))
    by exact Hmax.
  split; [reflexivity|].
  split; [rewrite Pp; simpl; now rewrite Hv|].
  split; [reflexivity|].
  split; [reflexivity|].
  intros freq.
  unfold simulate, parameters_optimal_values, bind, get, ret.
  rewrite Pmin, Pmax, Pp, Hv, simulate_loop_fold. reflexivity.
Qed.

Lemma model_prepared_eq :
  solve_prepare None None false true Examples.model_recharge
  = (Scenarios.model_prepared, inr (Examples.day 0, Examples.day 10)).
Proof. vm_compute. reflexivity. Qed.

Lemma solve_success_witness :
  option_map optimal_values
    (self_parameters
       (fst (solve None None Examples.solver_ok true false true
                   Examples.model_recharge)))
  = Some (optimal_params (mkFit [5%float; 6%float] "fit ok")).
Proof.
  refine (proj1 (proj2 (solve_success Examples.model_recharge
                          Scenarios.model_prepared None None
                          Examples.solver_ok true false true
                          (Examples.day 0, Examples.day 10)
                          (mkFit [5%float; 6%float] "fit ok")
                          model_prepared_eq eq_refl _))).
  intros df H. vm_compute in H. injection H as <-. reflexivity.
Defined.

(** X13: when the table has rows and the solver gives a fit whose vector
    has not one value for each of them, [solve] raises the error of the
    assignment to the [optimal] column; the report of the fit is not
    stored and the table is left as [initialize] built it. *)
Theorem solve_wrong_length (m m2 : Model) (tmin tmax : option Z)
        (solver : Solver) (report noise initial : bool)
        (period : Timestamp * Timestamp) (fit : Fit) (df : DataFrame) :
  solve_prepare tmin tmax noise initial m = (m2, inr period) ->
  solver m2 (fst period) (snd period) noise = inr fit ->
  self_parameters m2 = Some df ->
  df <> [] ->
  length (optimal_params fit) <> length df ->
  solve tmin tmax solver report noise initial m
  = (m2, inl (ValueError
                "Length of values does not match length of index")) /\
  self_report m2 = self_report m.
Proof.
  intros Hp Hs Hdf Hne Hl.
  destruct (solve_prepare_returns _ _ _ _ _ _ _ Hp) as (Hr & _).
  split; [|exact Hr].
  rewrite solve_explicit, Hp, Hs, Hdf. unfold assign_optimal.
  destruct (Nat.eqb_spec (length (optimal_params fit)) (length df));
    [contradiction|].
  destruct df; [contradiction|reflexivity].
Qed.

Lemma solve_wrong_length_witness :
  solve None None Scenarios.solver_long true false true
        Examples.model_recharge
  = (Scenarios.model_prepared,
     inl (ValueError "Length of values does not match length of index")) /\
  self_report Scenarios.model_prepared = self_report Examples.model_recharge.
Proof.
  apply (solve_wrong_length Examples.model_recharge Scenarios.model_prepared
           None None Scenarios.solver_long true false true
           (Examples.day 0, Examples.day 10)
           (mkFit [5%float; 6%float; 7%float] "fit with three values")
           (declared_rows Examples.model_recharge)
           model_prepared_eq eq_refl).
  - vm_compute. reflexivity.
  - vm_compute. discriminate.
  - vm_compute. discriminate.
Defined.

Lemma when_print_explicit (b : bool) (msg : Message) (m : Model) :
  when b (print msg) m
  = (if b then with_stdout (self_stdout m ++ [msg]) m else m, inr tt).
Proof. now destruct b. Qed.

(** X14: a first [solve] with [initial=False], on a model that has no
    parameter table yet, raises an attribute error on [parameters] when
    it reaches [initialize]: the solver is not called and no table is
    built, but the period of the request is already stored. *)
Theorem solve_warm_start_without_table (m : Model) (tmin tmax : option Z)
        (solver : Solver) (report noise : bool) :
  self_parameters m = None ->
  (forall t, tmin = Some t -> is_timestamp t) ->
  (forall t, tmax = Some t -> is_timestamp t) ->
  let m1 := fst (solve tmin tmax solver report noise false m) in
  solve tmin tmax solver report noise false m
  = (m1, inl (AttributeError "parameters")) /\
  self_tmin m1 = Some (requested_tmin m tmin) /\
  self_tmax m1 = Some (requested_tmax m tmax) /\
  self_parameters m1 = None /\
  self_report m1 = self_report m.
Proof.
  intros Hnone Vmin Vmax m1.
  assert (E : exists out,
             solve tmin tmax solver report noise false m
             = (with_period (requested_tmin m tmin) (requested_tmax m tmax)
                            (with_stdout out m),
                inl (AttributeError "parameters"))).
  { rewrite solve_explicit. unfold solve_prepare, bind at 1 2, get.
    cbv beta iota. rewrite when_print_explicit.
    unfold bind at 1 2.
    match goal with
    | |- context [check_series tmin tmax ?x] => set (m0 := x)
    end.
    assert (Hm0 : exists out0, m0 = with_stdout out0 m).
    { unfold m0. destruct (_ && _).
      - eexists; reflexivity.
      - exists (self_stdout m). now rewrite with_stdout_same. }
    destruct Hm0 as [out0 Hm0]. clearbody m0. subst m0.
    rewrite (check_series_explicit _ tmin tmax Vmin Vmax). cbv zeta.
    rewrite initialize_explicit. cbv zeta.
    cbn [self_parameters with_period with_stdout].
    rewrite Hnone. eexists. reflexivity. }
  destruct E as [out E]. unfold m1. rewrite E. simpl.
  repeat split; assumption.
Qed.

Lemma solve_warm_start_without_table_witness :
  snd (solve None None Examples.solver_ok true false false
             Examples.model_recharge)
  = inl (AttributeError "parameters").
Proof.
  refine (f_equal snd
            (proj1 (solve_warm_start_without_table Examples.model_recharge
                      None None Examples.solver_ok true false
                      eq_refl _ _)));
    discriminate.
Defined.

End MoreSolve.

Section MoreInitialize.

Local Open Scope nat_scope.

Lemma fold_append_concat (tss : list Tseries) :
  forall df,
    fold_left (fun df ts => df ++ ts_parameters ts) tss df
    = df ++ concat (map ts_parameters tss).
Proof.
  induction tss as [|ts rest IH]; intros df; simpl.
  - now rewrite app_nil_r.
  - now rewrite IH, app_assoc.
Qed.

Lemma declared_rows_in_order (m : Model) :
  declared_rows m = rows_in_order m.
Proof.
  unfold declared_rows, append_all, rows_in_order.
  rewrite fold_append_concat. simpl.
  destruct (self_noisemodel m); [reflexivity|].
  now rewrite app_nil_r.
Qed.

(** X15: [initialize] with [initial=True] always returns.  The table it
    builds holds the rows of the components in registration order, then
    those of the noise model, as they are declared, and [nparam] is the
    sum of the declared [nparam]; a table that was there before is not
    read, and a second reset changes nothing. *)
Theorem initialize_reset (m : Model) :
  let m' := fst (initialize true m) in
  initialize true m = (m', inr tt) /\
  self_parameters m' = Some (rows_in_order m) /\
  self_nparam m' = Some (total_nparam m) /\
  (forall df, self_parameters (fst (initialize true (with_parameters df m)))
              = Some (rows_in_order m)) /\
  initialize true m' = (m', inr tt).
Proof.
  intros m'. unfold m'. rewrite !initialize_explicit. cbv zeta.
  cbn [fst]. rewrite <- declared_rows_in_order.
  repeat split.
Qed.

Lemma label_mem_In (l : string) (ls : list string) :
  label_mem l ls = true <-> In l ls.
Proof.
  induction ls as [|x r IH]; simpl; [easy|].
  rewrite orb_true_iff, IH.
  destruct (String.eqb_spec x l); intuition congruence.
Qed.

(** In a column of unique labels, a label gives the value of its row, and
    a label that is not there gives NaN. *)
Lemma column_at_unique (old : DataFrame) :
  labels_unique (map label old) = true ->
  (forall o, In o old ->
             column_at (column_optimal old) (label o) = optimal o) /\
  (forall l, ~ In l (map label old) ->
             column_at (column_optimal old) l = nan).
Proof.
  unfold column_at. induction old as [|o' rest IH]; simpl.
  - intros _. split; [easy|reflexivity].
  - intros H. apply andb_true_iff in H as [Hfresh Hrest].
    apply negb_true_iff in Hfresh.
    destruct (IH Hrest) as [IH1 IH2]. split.
    + intros o [->|Hin].
      * now rewrite String.eqb_refl.
      * destruct (String.eqb_spec (label o') (label o)) as [E|_].
        -- exfalso.
           assert (Hm : label_mem (label o') (map label rest) = true).
           { apply label_mem_In. rewrite E. now apply in_map. }
           congruence.
        -- now apply IH1.
    + intros l Hl.
      destruct (String.eqb_spec (label o') l) as [E|_].
      * exfalso. apply Hl. now left.
      * apply IH2. intros Hin. apply Hl. now right.
Qed.

(** X16: a warm start on a registry that is no longer the one of the
    table: when the labels of the rows declared are not those of the
    table and the labels of the table are unique, [initialize] with
    [initial=False] returns and aligns on the labels.  A declared row
    whose label is in the previous table starts from the [optimal] value
    of that row; a row with a new label starts from NaN. *)
Theorem initialize_warm_start_aligned (m : Model) (old : DataFrame) :
  self_parameters m = Some old ->
  declared_rows m <> [] ->
  map label old <> map label (declared_rows m) ->
  labels_unique (map label old) = true ->
  let new := map (fun r => set_initial r (column_at (column_optimal old)
                                                    (label r)))
                 (declared_rows m) in
  (exists m', initialize false m = (m', inr tt) /\
              self_parameters m' = Some new) /\
  (forall o, In o old ->
             column_at (column_optimal old) (label o) = optimal o) /\
  (forall l, ~ In l (map label old) ->
             column_at (column_optimal old) l = nan).
Proof.
  intros Hold Hne Hlab Huniq new.
  split; [|now apply column_at_unique].
  rewrite initialize_explicit, Hold. cbv zeta.
  unfold assign_initial.
  assert (L : map fst (column_optimal old) = map label old).
  { unfold column_optimal. now rewrite map_map. }
  rewrite L.
  destruct (labels_eqb (map label old) (map label (declared_rows m))) eqn:E.
  { apply labels_eqb_eq in E. contradiction. }
  destruct (declared_rows m) as [|r rows] eqn:D; [contradiction|].
  rewrite Huniq. eexists. split; reflexivity.
Qed.

Lemma initialize_warm_start_aligned_witness :
  option_map initial_values
    (self_parameters (fst (initialize false Scenarios.model_grown)))
  = Some [5%float; 6%float; nan].
Proof.
  destruct (self_parameters Scenarios.model_grown) as [old|] eqn:Hold;
    [|vm_compute in Hold; discriminate].
  assert (Eold : old = [mkRow "recharge_A" 1%float 0%float 10%float true
                              5%float "recharge";
                        mkRow "recharge_a" 2%float 0%float 10%float true
                              6%float "recharge"]).
  { vm_compute in Hold. now injection Hold as <-. }
  destruct (initialize_warm_start_aligned Scenarios.model_grown old Hold)
    as ((m' & Hi & Hp) & _).
  - discriminate.
  - rewrite Eold. vm_compute. discriminate.
  - rewrite Eold. reflexivity.
  - rewrite Hi. cbn [fst]. rewrite Hp, Eold. reflexivity.
Defined.

End MoreInitialize.

(** * The time index of simulate *)

Section TimeIndex.

Lemma increasing_map_seq (g : nat -> Z) :
  (forall k, g k < g (S k)) ->
  forall n a, increasing (map g (seq a n)).
Proof.
  intros Hg. induction n as [|n IH]; intros a; simpl; [exact I|].
  split; [|apply IH].
  destruct n; simpl; [exact I|apply Hg].
Qed.

Lemma date_range_In (tmin tmax : Timestamp) (freq : positive) (t : Z) :
  In t (date_range tmin tmax freq) ->
  tmin <= t <= tmax /\ (t - tmin) mod Z.pos freq = 0.
Proof.
  unfold date_range. destruct (Z.ltb_spec tmax tmin) as [|Hle]; [easy|].
  intros H. apply in_map_iff in H as (k & <- & Hk).
  apply in_seq in Hk.
  assert (Hq : 0 <= (tmax - tmin) / Z.pos freq)
    by (apply Z.div_pos; lia).
  assert (Hk' : Z.of_nat k <= (tmax - tmin) / Z.pos freq) by lia.
  pose proof (Z.mul_div_le (tmax - tmin) (Z.pos freq) eq_refl) as Hm.
  split.
  - split; [nia|]. nia.
  - replace (tmin + Z.of_nat k * Z.pos freq - tmin)
      with (Z.of_nat k * Z.pos freq) by lia.
    apply Z.mod_mul. lia.
Qed.

(** X17: when every component simulates on the time index it is given,
    the series [simulate] returns on a window is empty when [tmax] is
    before [tmin]; otherwise it starts at [tmin] and has one row every
    [freq] up to [tmax]: its labels grow strictly, lie between [tmin] and
    [tmax] at a multiple of [freq] from [tmin], and their number is the
    quotient of [tmax - tmin] by [freq], plus one. *)
Theorem simulate_time_index (m : Model) (p : list float)
        (tmin tmax : Timestamp) (freq : positive) :
  Forall well_indexed (registry m) ->
  let idx := index (simulated m p tmin tmax freq) in
  simulate (Some p) (Some tmin) (Some tmax) freq m
  = (m, inr (simulated m p tmin tmax freq)) /\
  (tmax < tmin -> idx = []) /\
  (tmin <= tmax ->
   hd_error idx = Some tmin /\
   length idx = (Z.to_nat ((tmax - tmin) / Z.pos freq) + 1)%nat) /\
  increasing idx /\
  forall t, In t idx ->
            tmin <= t <= tmax /\ (t - tmin) mod Z.pos freq = 0.
Proof.
  intros Hwi idx.
  assert (E : idx = date_range tmin tmax freq).
  { unfold idx, simulated. rewrite fold_series_iadd_index.
    unfold index, zeros. rewrite map_map. simpl. apply map_id. }
  split; [apply simulate_explicit|].
  rewrite E. clear E idx. unfold date_range.
  split; [|split; [|split]].
  - intros H. destruct (Z.ltb_spec tmax tmin); [reflexivity|lia].
  - intros H. destruct (Z.ltb_spec tmax tmin); [lia|].
    rewrite length_map, length_seq. split; [|reflexivity].
    rewrite Nat.add_1_r. simpl. f_equal. lia.
  - destruct (Z.ltb_spec tmax tmin); [exact I|].
    apply increasing_map_seq. intros k. nia.
  - apply date_range_In.
Qed.

Lemma simulate_time_index_witness :
  length (index (simulated Examples.model_two [1%float; 2%float; 3%float]
                           (Examples.day 2) (Examples.day 4) freq_D))
  = (Z.to_nat ((Examples.day 4 - Examples.day 2) / Z.pos freq_D) + 1)%nat.
Proof.
  refine (proj2 (proj1 (proj2 (proj2
            (simulate_time_index Examples.model_two
               [1%float; 2%float; 3%float]
               (Examples.day 2) (Examples.day 4) freq_D
               model_two_well_indexed))) _)).
  vm_compute. discriminate.
Defined.

End TimeIndex.

(** * Vectors that are too short *)

Section ShortVector.

Local Open Scope nat_scope.

Lemma slice_beyond (p : list float) (i j : nat) :
  length p <= i -> slice p i j = [].
Proof.
  intros H. unfold slice. rewrite skipn_all2 by exact H.
  apply firstn_nil.
Qed.

Lemma contributions_beyond (tss : list Tseries) (p : list float)
      (tindex : list Timestamp) :
  forall i,
    length p <= i ->
    contributions tss p tindex i
    = map (fun ts => ts_simulate ts [] tindex) tss.
Proof.
  induction tss as [|ts rest IH]; intros i H; simpl; [reflexivity|].
  rewrite slice_beyond by exact H. f_equal. apply IH. lia.
Qed.

(** X18: on a parameter vector that ends where the slices of the first
    components end, [simulate] does not fail: every later component is
    simulated on the empty slice, and the result is the sum of these
    contributions after those of the first components. *)
Theorem simulate_short_vector (m : Model) (pre post : list Tseries)
        (p : list float) (tmin tmax : Timestamp) (freq : positive) :
  registry m = (pre ++ post)%list ->
  length p <= sum_nparam pre ->
  let tindex := date_range tmin tmax freq in
  simulate (Some p) (Some tmin) (Some tmax) freq m
  = (m, inr (fold_left series_iadd
               (contributions pre p tindex 0
                ++ map (fun ts => ts_simulate ts [] tindex) post)%list
               (zeros tindex))).
Proof.
  intros Hreg Hlen tindex.
  rewrite simulate_explicit. unfold simulated. fold tindex.
  rewrite Hreg, contributions_app.
  now rewrite (contributions_beyond post p tindex) by (simpl; lia).
Qed.

Lemma simulate_short_vector_witness :
  simulate (Some [1%float]) (Some (Examples.day 0)) (Some (Examples.day 2))
           freq_D Examples.model_two
  = (Examples.model_two,
     inr (fold_left series_iadd
            (contributions [Examples.constant] [1%float]
                           (date_range (Examples.day 0) (Examples.day 2)
                                       freq_D) 0
             ++ map (fun ts =>
                       ts_simulate ts []
                         (date_range (Examples.day 0) (Examples.day 2)
                                     freq_D))
                    [Examples.recharge])%list
            (zeros (date_range (Examples.day 0) (Examples.day 2) freq_D)))).
Proof.
  apply (simulate_short_vector Examples.model_two [Examples.constant]
           [Examples.recharge] [1%float] (Examples.day 0) (Examples.day 2)
           freq_D eq_refl).
  vm_compute. lia.
Defined.

End ShortVector.
